(** * Housekeeper: the node agent's Upgrade call and the cluster reconciler

    A shallow embedding of
      - housekeeper/daemon/server/server.go            (module [Server])
      - housekeeper/operator/housekeeper-controller/controllers/update_controller.go
                                                        (module [Controllers])
    Both programs are sequences of calls into the operating system (processes,
    the file system) and into the cluster API.  Those calls are kept as an
    explicit interface ([Host], [Cluster]); the Go code is written over it in
    a state monad that also records every call made, so that statements such
    as "no upgrade command was run" are statements about the recorded log. *)

From Stdlib Require Import String Ascii ZArith List Bool Lia.
From stdpp Require Import base option list gmap strings.
Import ListNotations.
Local Open Scope string_scope.

(** ** Go values shared by both programs *)

(** exec.Command(name, args...) *)
Record Cmd := Command { cmd_name : string; cmd_args : list string }.

#[global] Instance Cmd_eq_dec : EqDecision Cmd.
Proof. solve_decision. Defined.

(** Go [error] values.  [nil] is [None] of [option error]. *)
Inductive error :=
| ExitError (c : Cmd)                  (* os/exec: the process failed *)
| PathError (path : string)            (* os: MkdirAll failed *)
| VersionParseError (input : string)   (* version: the string is no semantic version *)
| StatusError (what : string)          (* cluster API or remote call failed *)
| Errorf (msg : string) (cause : error). (* fmt.Errorf wrapping *)

#[global] Instance error_eq_dec : EqDecision error.
Proof. solve_decision. Defined.

(** ** The monad: state, plus the panic of Go's Must-functions *)

Inductive outcome (S A : Type) :=
| Done (a : A) (s : S)
| Panicked (e : error) (s : S).
Arguments Done {S A} a s.
Arguments Panicked {S A} e s.

Definition M (S A : Type) : Type := S -> outcome S A.

Definition ret {S A} (a : A) : M S A := fun s => Done a s.

Definition bind {S A B} (m : M S A) (k : A -> M S B) : M S B :=
  fun s => match m s with
           | Done a s' => k a s'
           | Panicked e s' => Panicked e s'
           end.

Definition panic {S A} (e : error) : M S A := fun s => Panicked e s.

Notation "x <- m ;; k" := (bind m (fun x => k))
  (at level 100, m at next level, right associativity).

(** A system under observation: the outside world and the log of calls. *)
Record Sys (W E : Type) := MkSys { world : W; log : list E }.
Arguments MkSys {W E} world log.
Arguments world {W E} s.
Arguments log {W E} s.

(** A call starts with an empty log. *)
Definition fresh {W E} (w : W) : Sys W E := MkSys w [].

(** The state a computation stops in, returned or panicked. *)
Definition final {S A} (o : outcome S A) : S :=
  match o with Done _ s => s | Panicked _ s => s end.

(** A computation that logs at least [n] calls, whatever the state. *)
Definition logsAtLeast {W E A} (n : nat) (m : M (Sys W E) A) : Prop :=
  forall st, length (log st) + n <= length (log (final (m st))).

(** ** k8s.io/apimachinery/pkg/util/version, as far as the agent uses it *)

Record VersionLib := {
  Version : Type;
  (** ParseSemantic; [None] is its error result *)
  ParseSemantic : string -> option Version;
  (** compareInternal: -1, 0 or 1 *)
  compareInternal : Version -> Version -> Z
}.

Module Server.

(** Calls the agent makes into its host, in the order they happen. *)
Inductive event :=
| EvExec (c : Cmd) (err : option error)
| EvMkdirAll (path : string) (err : option error).

(** The node the agent runs on. *)
Record Host (W : Type) := {
  (** Modelled from the spec: common.IsFileExist (package
      housekeeper.io/pkg/common is not among the sources): whether a path
      exists on the local file system. *)
  IsFileExist : string -> W -> bool;
  (** os.MkdirAll *)
  MkdirAll : string -> W -> option error * W;
  (** Starting a process and waiting for it: its standard output, or the
      error of exec.Cmd.Output / exec.Cmd.Run. *)
  spawn : Cmd -> W -> (error + string) * W
}.
Arguments IsFileExist {W} h path w.
Arguments MkdirAll {W} h path w.
Arguments spawn {W} h c w.

(** pb.UpgradeRequest *)
Record UpgradeRequest := {
  KubeVersion : string;
  OsImageUrl : string;
  OsVersion : string
}.

Definition ostreeImage := "ostree-unverified-image:docker://".
Definition kubeadmCmd := "/usr/bin/kubeadm".
Definition upgradeMasterCmd := "/usr/bin/kubeadm upgrade apply -y".
Definition upgradeWorkerCmd := "/usr/bin/kubeadm upgrade node".
Definition kubeletUpdateCmd := "systemctl daemon-reload && systemctl restart kubelet".
Definition adminFile := "/etc/kubernetes/admin.conf".

Definition sh := "/bin/sh".

Definition osReleaseCmd : Cmd :=
  Command sh ["-c"; "cat /etc/os-release | grep 'VERSION=' | head -n 1 | awk -F 'VERSION=' '{print $2}'"].
Definition kubeadmVersionCmd : Cmd := Command kubeadmCmd ["version"; "-o"; "short"].
Definition kubeletCmd : Cmd := Command sh ["-c"; kubeletUpdateCmd].
Definition workerCmd : Cmd := Command sh ["-c"; upgradeWorkerCmd].
Definition touchCmd (file : string) : Cmd := Command sh ["-c"; "touch"; file].

(** fmt.Sprintf("%s%s%s", "/var/housekeeper/", version, ".stamp") *)
Definition markFile (version : string) : string :=
  "/var/housekeeper/" +:+ version +:+ ".stamp".

Section Agent.
Context {W : Type} (host : Host W) (vlib : VersionLib).

Abbreviation St := (Sys W event).
Abbreviation Go := (M St).

Definition is_nil {A} (r : error + A) : option error :=
  match r with inl e => Some e | inr _ => None end.

(** cmd.Output() *)
Definition Output (c : Cmd) : Go (error + string) := fun st =>
  let '(r, w') := spawn host c (world st) in
  Done r (MkSys w' (log st ++ [EvExec c (is_nil r)])).

(** cmd.Run() *)
Definition Run (c : Cmd) : Go (option error) :=
  r <- Output c ;; ret (is_nil r).

Definition isFileExist (path : string) : Go bool := fun st =>
  Done (IsFileExist host path (world st)) st.

Definition mkdirAll (path : string) : Go (option error) := fun st =>
  let '(r, w') := MkdirAll host path (world st) in
  Done r (MkSys w' (log st ++ [EvMkdirAll path r])).

(** version.MustParseSemantic *)
Definition MustParseSemantic (str : string) : Go (Version vlib) :=
  match ParseSemantic vlib str with
  | Some v => ret v
  | None => panic (VersionParseError str)
  end.

(** Version.Compare *)
Definition Compare (v : Version vlib) (other : string) : Z * option error :=
  match ParseSemantic vlib other with
  | None => (0%Z, Some (VersionParseError other))
  | Some ov => (compareInternal vlib v ov, None)
  end.

Definition runCmd (name : string) (args : list string) : Go (error + string) :=
  r <- Output (Command name args) ;;
  match r with
  | inl err => ret (inl err)
  | inr output => ret (inr output)
  end.

Definition markNode (file : string) : Go (option error) :=
  b <- isFileExist "/var/housekeeper" ;;
  e <- (if negb b then mkdirAll "/var/housekeeper" else ret None) ;;
  match e with
  | Some err => ret (Some err)
  | None =>
      r <- runCmd sh ["-c"; "touch"; file] ;;
      match r with
      | inl err => ret (Some err)
      | inr _ => ret None
      end
  end.

Definition isMasterNode : Go bool := isFileExist adminFile.

Definition upgradeWorkerNodes : Go (option error) :=
  e <- Run (Command sh ["-c"; kubeletUpdateCmd]) ;;
  match e with
  | Some err => ret (Some err)
  | None =>
      e <- Run (Command sh ["-c"; upgradeWorkerCmd]) ;;
      match e with
      | Some err => ret (Some err)
      | None => ret None
      end
  end.

Definition upgradeMasterNodes (version : string) : Go (option error) :=
  e <- Run (Command sh ["-c"; kubeletUpdateCmd]) ;;
  match e with
  | Some err => ret (Some err)
  | None =>
      e <- Run (Command sh ["-c"; upgradeMasterCmd; version]) ;;
      match e with
      | Some err => ret (Some err)
      | None => ret None
      end
  end.

Definition upgradeKubeVersion (req : UpgradeRequest) : Go (option error) :=
  master <- isMasterNode ;;
  if master then
    e <- upgradeMasterNodes (KubeVersion req) ;;
    match e with Some err => ret (Some err) | None => ret None end
  else
    e <- upgradeWorkerNodes ;;
    match e with Some err => ret (Some err) | None => ret None end.

Definition upgradeOSVersion (req : UpgradeRequest) : Go (option error) :=
  let customImageURL := ostreeImage +:+ OsImageUrl req in
  r <- runCmd "rpm-ostree" ["rebase"; "--experimental"; customImageURL; "--bypass-driver"] ;;
  match r with
  | inl err => ret (Some err)
  | inr _ =>
      e <- Run (Command sh ["-c"; "systemctl reboot"]) ;;
      match e with
      | Some err => ret (Some err)
      | None => ret None
      end
  end.

Definition checkKubeVersion (req : UpgradeRequest) : Go (option error) :=
  r <- runCmd kubeadmCmd ["version"; "-o"; "short"] ;;
  match r with
  | inl err => ret (Some err)
  | inr kubeadmVersion =>
      v <- MustParseSemantic kubeadmVersion ;;
      match Compare v (KubeVersion req) with
      | (_, Some err) => ret (Some err)
      | (cmp, None) =>
          if (cmp =? -1)%Z then ret None
          else
            e <- upgradeKubeVersion req ;;
            match e with Some err => ret (Some err) | None => ret None end
      end
  end.

Definition checkOsVersion (req : UpgradeRequest) : Go (option error) :=
  r <- runCmd sh ["-c"; "cat /etc/os-release | grep 'VERSION=' | head -n 1 | awk -F 'VERSION=' '{print $2}'"] ;;
  match r with
  | inl err => ret (Some err)
  | inr osVersion =>
      v <- MustParseSemantic osVersion ;;
      match Compare v (OsVersion req) with
      | (_, Some err) => ret (Some err)
      | (cmp, None) =>
          if (cmp =? 0)%Z then ret None
          else
            e <- upgradeOSVersion req ;;
            match e with Some err => ret (Some err) | None => ret None end
      end
  end.

(** The first half of [Upgrade]: the operating-system step. *)
Definition osStep (req : UpgradeRequest) : Go (option error) :=
  if (0 <? String.length (OsVersion req))%nat then checkOsVersion req else ret None.

(** The second half of [Upgrade]: the orchestrator step. *)
Definition kubeStep (req : UpgradeRequest) : Go (option error) :=
  if (0 <? String.length (KubeVersion req))%nat then
    let markFile := "/var/housekeeper/" +:+ KubeVersion req +:+ ".stamp" in
    stamped <- isFileExist markFile ;;
    if stamped then ret None
    else
      e <- checkKubeVersion req ;;
      match e with
      | Some err => ret (Some err)
      | None =>
          e <- markNode markFile ;;
          match e with
          | Some err => ret (Some err)
          | None => ret None
          end
      end
  else ret None.

(** Server.Upgrade.  The mutex is taken on entry and released on return;
    one call is modelled, so it has no effect here.  The response is the
    empty message on every path and only the error is kept. *)
Definition Upgrade (req : UpgradeRequest) : Go (option error) :=
  e <- osStep req ;;
  match e with
  | Some err => ret (Some err)
  | None => kubeStep req
  end.

End Agent.

(** *** Reading the log of a call *)

#[global] Instance event_eq_dec : EqDecision event.
Proof. solve_decision. Defined.

(** The commands of upgradeMasterNodes and upgradeWorkerNodes: the kubelet
    restart and the two kubeadm upgrade commands, the master one with any
    version. *)
Definition isUpgradeCommand (c : Cmd) : bool :=
  bool_decide (c = kubeletCmd) || bool_decide (c = workerCmd)
  || match cmd_args c with
     | [a; b; _] =>
         bool_decide (cmd_name c = sh) && bool_decide (a = "-c") && bool_decide (b = upgradeMasterCmd)
     | _ => false
     end.

Definition ranUpgrade (l : list event) : bool :=
  existsb (fun ev => match ev with EvExec c _ => isUpgradeCommand c | _ => false end) l.

(** markNode's command for [file] ran and reported success. *)
Definition marked (file : string) (l : list event) : bool :=
  existsb (fun ev => bool_decide (ev = EvExec (touchCmd file) None)) l.

End Server.

(** ** The cluster reconciler *)

Module v1alpha1.
(** housekeeperiov1alpha1.Update, reduced to its Spec *)
Record UpdateSpec := {
  OSVersion : string;
  OSImageURL : string;
  KubeVersion : string;
  EvictPodForce : bool
}.
Record Update := { Spec : UpdateSpec }.
(** The zero value of a Go struct: what a failed Get leaves behind. *)
Definition zero : Update := {| Spec := {| OSVersion := ""; OSImageURL := ""; KubeVersion := ""; EvictPodForce := false |} |}.
End v1alpha1.

Module corev1.
(** corev1.Node, the fields the reconciler reads *)
Record Node := {
  Name : string;
  Labels : gmap string string;
  (** node.Spec.Unschedulable *)
  Unschedulable : bool;
  (** node.Status.NodeInfo.OSImage *)
  OSImage : string
}.
Definition zero : Node := {| Name := ""; Labels := ∅; Unschedulable := false; OSImage := "" |}.
End corev1.

Module connection.
Record PushInfo := {
  KubeVersion : string;
  OSImageURL : string;
  OSVersion : string
}.
End connection.

Module drain.
(** drain.Helper, the fields the reconciler sets *)
Record Helper := {
  Force : bool;
  IgnoreAllDaemonSets : bool;
  DeleteEmptyDirData : bool;
  GracePeriodSeconds : Z
}.
End drain.

Module Controllers.

(** Modelled from the spec: common.RequeueNow and common.RequeueAfter (package
    housekeeper.io/pkg/common is not among the sources): the two ctrl.Result
    values, "retry this pass immediately" and "re-check after the bounded
    delay". *)
Inductive Result := RequeueNow | RequeueAfter.

(** Calls the reconciler makes into the cluster, in the order they happen. *)
Inductive event :=
| EvGetUpdate (name : string) (err : option error)
| EvGetNode (name : string) (err : option error)
| EvUpdate (node : corev1.Node) (err : option error)
| EvCordonOrUncordon (drainer : drain.Helper) (node : corev1.Node) (desired : bool) (err : option error)
| EvNodeDrain (drainer : drain.Helper) (nodeName : string) (err : option error)
| EvUpgradeKubeSpec (info : connection.PushInfo) (err : option error).

(** What the reconciler talks to. *)
Record Cluster (W : Type) := {
  (** Modelled from the spec: common.IsFileExist, as for the agent. *)
  IsFileExist : string -> W -> bool;
  (** r.Get into an Update, and into a Node *)
  GetUpdate : string -> W -> (error + v1alpha1.Update) * W;
  GetNode : string -> W -> (error + corev1.Node) * W;
  (** r.Update of a Node: on success the object as the server stored it *)
  Update : corev1.Node -> W -> (error + corev1.Node) * W;
  (** drain.RunCordonOrUncordon and drain.RunNodeDrain *)
  RunCordonOrUncordon : drain.Helper -> corev1.Node -> bool -> W -> option error * W;
  RunNodeDrain : drain.Helper -> string -> W -> option error * W;
  (** Modelled from the spec: connection.Client.UpgradeKubeSpec (package
      housekeeper.io/pkg/connection is not among the sources): the remote
      call of the node agent's Upgrade with the pushed versions. *)
  UpgradeKubeSpec : connection.PushInfo -> W -> option error * W
}.
Arguments IsFileExist {W} c path w.
Arguments GetUpdate {W} c name w.
Arguments GetNode {W} c name w.
Arguments Update {W} c node w.
Arguments RunCordonOrUncordon {W} c drainer node desired w.
Arguments RunNodeDrain {W} c drainer nodeName w.
Arguments UpgradeKubeSpec {W} c info w.

Section Reconciler.
Context {W : Type} (cluster : Cluster W).
(** Modelled from the spec: constants.LabelUpgrading (package
    housekeeper.io/pkg/constants is not among the sources): the key of the
    `upgrading` label. *)
Context (LabelUpgrading : string).
(** r.HostName, read from NODE_NAME when the reconciler is built *)
Context (HostName : string).

Abbreviation St := (Sys W event).
Abbreviation Go := (M St).

Definition is_nil {A} (r : error + A) : option error :=
  match r with inl e => Some e | inr _ => None end.

(** One call into the cluster: run it on the world and log it. *)
Definition invoke {A} (f : W -> A * W) (ev : A -> event) : Go A := fun st =>
  let '(r, w') := f (world st) in
  Done r (MkSys w' (log st ++ [ev r])).

Definition isFileExist (path : string) : Go bool := fun st =>
  Done (IsFileExist cluster path (world st)) st.

(** Check if the version is upgraded *)
Definition checkUpgrade (osVersion osVersionSpec kubeVersionSpec : string) : Go bool :=
  if (0 <? String.length kubeVersionSpec)%nat then
    let markFile := "/var/housekeeper/" +:+ kubeVersionSpec +:+ ".stamp" in
    stamped <- isFileExist markFile ;;
    if stamped then ret false else ret true
  else ret (negb (String.eqb osVersion osVersionSpec)).

Definition reqInstance (name : string) (HostName : string)
  : Go (v1alpha1.Update * corev1.Node) :=
  r <- invoke (GetUpdate cluster name) (fun r => EvGetUpdate name (is_nil r)) ;;
  match r with
  | inl err => ret (v1alpha1.zero, corev1.zero)
  | inr upInstance =>
      r <- invoke (GetNode cluster HostName) (fun r => EvGetNode HostName (is_nil r)) ;;
      match r with
      | inl err => ret (upInstance, corev1.zero)
      | inr nodeInstance => ret (upInstance, nodeInstance)
      end
  end.

(** Sets schedulable or not *)
Definition cordonOrUncordonNode (desired : bool) (drainer : drain.Helper) (node : corev1.Node)
  : Go (option error) :=
  let carry := if negb desired then "uncordon" else "cordon" in
  if Bool.eqb (corev1.Unschedulable node) desired then ret None
  else
    err <- invoke (RunCordonOrUncordon cluster drainer node desired)
                  (EvCordonOrUncordon drainer node desired) ;;
    match err with
    | Some err => ret (Some (Errorf ("failed to " +:+ carry) err))
    | None => ret None
    end.

Definition drainNode (drainer : drain.Helper) (node : corev1.Node) : Go (option error) :=
  err <- cordonOrUncordonNode true drainer node ;;
  match err with
  | Some err => ret (Some (Errorf ("failed to cordon node " +:+ corev1.Name node) err))
  | None =>
      err <- invoke (RunNodeDrain cluster drainer (corev1.Name node))
                    (EvNodeDrain drainer (corev1.Name node)) ;;
      match err with
      | Some err => ret (Some (Errorf "unable to drain" err))
      | None => ret None
      end
  end.

(** delete(node.Labels, key) changes the node the caller holds, and a
    successful r.Update overwrites it with the stored object; the node is
    therefore returned along with the error. *)
Definition deleteLabel (node : corev1.Node) : Go (option error * corev1.Node) :=
  match corev1.Labels node !! LabelUpgrading with
  | Some _ =>
      let node := {| corev1.Name := corev1.Name node;
                     corev1.Labels := delete LabelUpgrading (corev1.Labels node);
                     corev1.Unschedulable := corev1.Unschedulable node;
                     corev1.OSImage := corev1.OSImage node |} in
      r <- invoke (Update cluster node) (fun r => EvUpdate node (is_nil r)) ;;
      match r with
      | inl err => ret (Some err, node)
      | inr node' => ret (None, node')
      end
  | None => ret (None, node)
  end.

Definition refreshNodes (node : corev1.Node) : Go (option error) :=
  r <- deleteLabel node ;;
  let node := snd r in
  if corev1.Unschedulable node then
    let drainer := {| drain.Force := false; drain.IgnoreAllDaemonSets := false;
                      drain.DeleteEmptyDirData := false; drain.GracePeriodSeconds := -1 |} in
    err <- cordonOrUncordonNode false drainer node ;;
    match err with
    | Some err => ret (Some err)
    | None => ret None
    end
  else ret None.

Definition upgradeNodes (upInstance : v1alpha1.Update) (node : corev1.Node) : Go (option error) :=
  match corev1.Labels node !! LabelUpgrading with
  | Some _ =>
      let drainer := {| drain.Force := false; drain.IgnoreAllDaemonSets := true;
                        drain.DeleteEmptyDirData := true; drain.GracePeriodSeconds := -1 |} in
      let drainer := if v1alpha1.EvictPodForce (v1alpha1.Spec upInstance)
                     then {| drain.Force := true;
                             drain.IgnoreAllDaemonSets := drain.IgnoreAllDaemonSets drainer;
                             drain.DeleteEmptyDirData := drain.DeleteEmptyDirData drainer;
                             drain.GracePeriodSeconds := drain.GracePeriodSeconds drainer |}
                     else drainer in
      err <- drainNode drainer node ;;
      match err with
      | Some err => ret (Some err)
      | None =>
          let pushInfo := {| connection.KubeVersion := v1alpha1.KubeVersion (v1alpha1.Spec upInstance);
                             connection.OSImageURL := v1alpha1.OSImageURL (v1alpha1.Spec upInstance);
                             connection.OSVersion := v1alpha1.OSVersion (v1alpha1.Spec upInstance) |} in
          err <- invoke (UpgradeKubeSpec cluster pushInfo) (EvUpgradeKubeSpec pushInfo) ;;
          match err with
          | Some err => ret (Some err)
          | None => ret None
          end
      end
  | None => ret None
  end.

(** UpdateReconciler.Reconcile, on the request's NamespacedName *)
Definition Reconcile (name : string) : Go (Result * option error) :=
  r <- reqInstance name HostName ;;
  let '(upInstance, nodeInstance) := r in
  let osVersionSpec := v1alpha1.OSVersion (v1alpha1.Spec upInstance) in
  let kubeVersionSpec := v1alpha1.KubeVersion (v1alpha1.Spec upInstance) in
  let osVersion := corev1.OSImage nodeInstance in
  upgradeCluster <- checkUpgrade osVersion osVersionSpec kubeVersionSpec ;;
  if upgradeCluster then
    err <- upgradeNodes upInstance nodeInstance ;;
    match err with
    | Some err => ret (RequeueNow, Some err)
    | None => ret (RequeueAfter, None)
    end
  else
    _ <- refreshNodes nodeInstance ;;
    ret (RequeueAfter, None).

End Reconciler.

(** *** Reading the log of a pass *)

(** Cordon, drain, and the call of the node agent. *)
Definition isAction (ev : event) : bool :=
  match ev with
  | EvCordonOrUncordon _ _ true _ => true
  | EvNodeDrain _ _ _ => true
  | EvUpgradeKubeSpec _ _ => true
  | _ => false
  end.

(** A cordon, a drain or the agent call that returned an error. *)
Definition isFailedStep (ev : event) : bool :=
  match ev with
  | EvCordonOrUncordon _ _ true (Some _) => true
  | EvNodeDrain _ _ (Some _) => true
  | EvUpgradeKubeSpec _ (Some _) => true
  | _ => false
  end.

(** A read of the intent or of the node that returned an error. *)
Definition isFailedFetch (ev : event) : bool :=
  match ev with
  | EvGetUpdate _ (Some _) => true
  | EvGetNode _ (Some _) => true
  | _ => false
  end.

End Controllers.

(** ** Concrete instances, used to run the code on examples *)

(** Plain [MAJOR.MINOR.PATCH] versions with an optional leading [v]: the part
    of the version library's input language the examples need. *)
Module SemVer.

Record t := { major : N; minor : N; patch : N }.

Definition digit (a : ascii) : option N :=
  let n := N_of_ascii a in
  if ((48 <=? n) && (n <=? 57))%N then Some (n - 48)%N else None.

Fixpoint number (s : string) (acc : N) : option N :=
  match s with
  | EmptyString => Some acc
  | String a s' =>
      match digit a with
      | Some d => number s' (10 * acc + d)%N
      | None => None
      end
  end.

(** A component is a non-empty run of digits without a leading zero. *)
Definition component (s : string) : option N :=
  match s with
  | EmptyString => None
  | String a s' =>
      if Ascii.eqb a "0"%char && negb (String.eqb s' "") then None else number s 0%N
  end.

Fixpoint fields (s : string) : list string :=
  match s with
  | EmptyString => [EmptyString]
  | String a s' =>
      if Ascii.eqb a "."%char then EmptyString :: fields s'
      else match fields s' with
           | f :: fs => String a f :: fs
           | [] => [String a EmptyString]
           end
  end.

Definition parse (s : string) : option t :=
  let s := match s with
           | String a s' => if Ascii.eqb a "v"%char then s' else s
           | EmptyString => s
           end in
  match fields s with
  | [a; b; c] =>
      match component a, component b, component c with
      | Some x, Some y, Some z => Some {| major := x; minor := y; patch := z |}
      | _, _, _ => None
      end
  | _ => None
  end.

Definition sign (c : comparison) : Z :=
  match c with Lt => -1 | Eq => 0 | Gt => 1 end.

Definition compare (v o : t) : Z :=
  sign (match (major v ?= major o)%N with
        | Eq => match (minor v ?= minor o)%N with
                | Eq => (patch v ?= patch o)%N
                | c => c
                end
        | c => c
        end).

Definition lib : VersionLib :=
  {| Version := t; ParseSemantic := parse; compareInternal := compare |}.

End SemVer.

(** A node as a value: its files, what its two version queries print, which
    commands fail on it, and whether directories can be created.  Unless it
    is listed as failing, the marker command creates the file named by its
    last argument, as markNode expects of it; every other command leaves
    the files alone. *)
Module SimNode.

Record t := {
  files : gset string;
  kubeadmVersion : string;
  osRelease : string;
  failing : list Cmd;
  readOnly : bool
}.

Definition withFiles (w : t) (fs : gset string) : t :=
  {| files := fs; kubeadmVersion := kubeadmVersion w; osRelease := osRelease w;
     failing := failing w; readOnly := readOnly w |}.

Definition isMarker (c : Cmd) : option string :=
  match cmd_args c with
  | [a; b; file] =>
      if bool_decide (cmd_name c = Server.sh) && bool_decide (a = "-c") && bool_decide (b = "touch")
      then Some file else None
  | _ => None
  end.

Definition spawn (c : Cmd) (w : t) : (error + string) * t :=
  if bool_decide (c ∈ failing w) then (inl (ExitError c), w)
  else if bool_decide (c = Server.kubeadmVersionCmd) then (inr (kubeadmVersion w), w)
  else if bool_decide (c = Server.osReleaseCmd) then (inr (osRelease w), w)
  else match isMarker c with
       | Some file => (inr "", withFiles w ({[file]} ∪ files w))
       | None => (inr "", w)
       end.

Definition MkdirAll (path : string) (w : t) : option error * t :=
  if readOnly w then (Some (PathError path), w)
  else (None, withFiles w ({[path]} ∪ files w)).

Definition host : Server.Host t :=
  {| Server.IsFileExist := fun path w => bool_decide (path ∈ files w);
     Server.MkdirAll := MkdirAll;
     Server.spawn := spawn |}.

End SimNode.

(** A cluster as a value: the stored intent and node (absent: the read
    fails), the stamp files the reconciler can see, and which of its calls
    fail. *)
Module SimCluster.

Record t := {
  files : gset string;
  intent : option v1alpha1.Update;
  node : option corev1.Node;
  updateFails : bool;
  cordonFails : bool;
  drainFails : bool;
  agentFails : bool
}.

Definition fetch {A} (what : string) (o : option A) (w : t) : (error + A) * t :=
  match o with
  | Some a => (inr a, w)
  | None => (inl (StatusError what), w)
  end.

Definition answer (what : string) (fails : bool) (w : t) : option error * t :=
  (if fails then Some (StatusError what) else None, w).

Definition cluster : Controllers.Cluster t :=
  {| Controllers.IsFileExist := fun path w => bool_decide (path ∈ files w);
     Controllers.GetUpdate := fun _ w => fetch "update not found" (intent w) w;
     Controllers.GetNode := fun _ w => fetch "node not found" (node w) w;
     Controllers.Update := fun n w =>
       if updateFails w then (inl (StatusError "update refused"), w) else (inr n, w);
     Controllers.RunCordonOrUncordon := fun _ _ _ w => answer "cordon refused" (cordonFails w) w;
     Controllers.RunNodeDrain := fun _ _ w => answer "eviction refused" (drainFails w) w;
     Controllers.UpgradeKubeSpec := fun _ w => answer "agent unreachable" (agentFails w) w |}.

End SimCluster.

(** Requests, nodes and clusters of the examples. *)
Module Scenario.

Definition kubeRequest (version : string) : Server.UpgradeRequest :=
  {| Server.KubeVersion := version; Server.OsImageUrl := ""; Server.OsVersion := "" |}.

Definition osRequest (version image : string) : Server.UpgradeRequest :=
  {| Server.KubeVersion := ""; Server.OsImageUrl := image; Server.OsVersion := version |}.

(** A worker node with kubeadm v1.28.0 and no stamp directory yet. *)
Definition worker : SimNode.t :=
  {| SimNode.files := ∅; SimNode.kubeadmVersion := "v1.28.0"; SimNode.osRelease := "5.2.0";
     SimNode.failing := []; SimNode.readOnly := false |}.

(** The same node after version 1.28.0 was stamped. *)
Definition stampedWorker : SimNode.t :=
  SimNode.withFiles worker {["/var/housekeeper"; "/var/housekeeper/1.28.0.stamp"]}.

(** The same node on a file system that takes no new directory. *)
Definition readOnlyWorker : SimNode.t :=
  {| SimNode.files := ∅; SimNode.kubeadmVersion := "v1.28.0"; SimNode.osRelease := "5.2.0";
     SimNode.failing := []; SimNode.readOnly := true |}.

(** The same node with a shell that runs the marker command the way a POSIX
    shell does: of [sh -c touch file] the word after the command string is
    the command's name, touch is left without an operand and exits
    non-zero. *)
Definition posixWorker : SimNode.t :=
  {| SimNode.files := ∅; SimNode.kubeadmVersion := "v1.28.0"; SimNode.osRelease := "5.2.0";
     SimNode.failing := [Server.touchCmd "/var/housekeeper/1.28.0.stamp";
                         Server.touchCmd "/var/housekeeper/1.29.0.stamp"];
     SimNode.readOnly := false |}.

(** A node whose os-release carries a VERSION that is no semantic version. *)
Definition ltsWorker : SimNode.t :=
  {| SimNode.files := ∅; SimNode.kubeadmVersion := "v1.28.0"; SimNode.osRelease := "22.03 LTS";
     SimNode.failing := []; SimNode.readOnly := false |}.

Definition intent (kube os : string) : v1alpha1.Update :=
  {| v1alpha1.Spec := {| v1alpha1.OSVersion := os; v1alpha1.OSImageURL := "registry/os:5.3";
                         v1alpha1.KubeVersion := kube; v1alpha1.EvictPodForce := false |} |}.

(** A schedulable node that carries the upgrading label. *)
Definition labelled : corev1.Node :=
  {| corev1.Name := "node-1"; corev1.Labels := {["upgrading" := ""]};
     corev1.Unschedulable := false; corev1.OSImage := "NestOS 22.03" |}.

(** The same node without the label. *)
Definition unlabelled : corev1.Node :=
  {| corev1.Name := "node-1"; corev1.Labels := ∅;
     corev1.Unschedulable := false; corev1.OSImage := "NestOS 22.03" |}.

Definition clusterOf (i : option v1alpha1.Update) (n : option corev1.Node) : SimCluster.t :=
  {| SimCluster.files := ∅; SimCluster.intent := i; SimCluster.node := n;
     SimCluster.updateFails := false; SimCluster.cordonFails := false;
     SimCluster.drainFails := false; SimCluster.agentFails := false |}.

(** The reconciler on a node where version 1.28.0 is stamped. *)
Definition stampedCluster : SimCluster.t :=
  {| SimCluster.files := {["/var/housekeeper"; "/var/housekeeper/1.28.0.stamp"]};
     SimCluster.intent := Some (intent "1.28.0" ""); SimCluster.node := Some labelled;
     SimCluster.updateFails := false; SimCluster.cordonFails := false;
     SimCluster.drainFails := false; SimCluster.agentFails := false |}.

(** A cluster whose node agent cannot be reached. *)
Definition agentDown : SimCluster.t :=
  {| SimCluster.files := ∅; SimCluster.intent := Some (intent "1.28.0" "");
     SimCluster.node := Some labelled;
     SimCluster.updateFails := false; SimCluster.cordonFails := false;
     SimCluster.drainFails := false; SimCluster.agentFails := true |}.

(** A labelled node that is cordoned, in a cluster that refuses the update
    of the node and in which version 1.28.0 is stamped. *)
Definition cordoned : corev1.Node :=
  {| corev1.Name := "node-1"; corev1.Labels := {["upgrading" := ""]};
     corev1.Unschedulable := true; corev1.OSImage := "NestOS 22.03" |}.

Definition updateRefused : SimCluster.t :=
  {| SimCluster.files := {["/var/housekeeper/1.28.0.stamp"]};
     SimCluster.intent := Some (intent "1.28.0" ""); SimCluster.node := Some cordoned;
     SimCluster.updateFails := true; SimCluster.cordonFails := false;
     SimCluster.drainFails := false; SimCluster.agentFails := false |}.

End Scenario.

(** ** Reading logs: order and failure *)

Module Trace.
Section Trace.
Context {E : Type}.

(** Every entry that satisfies [q] comes directly after an entry that
    satisfies [p]. *)
Definition precededBy (p q : E -> bool) (l : list E) : Prop :=
  forall pre ev post,
    l = (pre ++ ev :: post)%list -> q ev = true ->
    exists pre' ev', pre = (pre' ++ [ev'])%list /\ p ev' = true.

(** No entry comes after an entry that does not satisfy [ok]. *)
Definition endsAtFirst (ok : E -> bool) (l : list E) : Prop :=
  forall pre ev post, l = (pre ++ ev :: post)%list -> ok ev = false -> post = [].

(** The two properties as checks that run. *)
Fixpoint followsFrom (p q : E -> bool) (prev : bool) (l : list E) : bool :=
  match l with
  | [] => true
  | ev :: l' => implb (q ev) prev && followsFrom p q (p ev) l'
  end.

Definition follows (p q : E -> bool) (l : list E) : bool := followsFrom p q false l.

Fixpoint onlyLast (ok : E -> bool) (l : list E) : bool :=
  match l with
  | [] => true
  | ev :: l' =>
      match l' with
      | [] => true
      | _ :: _ => ok ev && onlyLast ok l'
      end
  end.

End Trace.
End Trace.

Module ServerLog.
Import Server.

Definition rebaseCmd (req : UpgradeRequest) : Cmd :=
  Command "rpm-ostree" ["rebase"; "--experimental"; ostreeImage +:+ OsImageUrl req; "--bypass-driver"].
Definition rebootCmd : Cmd := Command sh ["-c"; "systemctl reboot"].
Definition masterCmd (version : string) : Cmd := Command sh ["-c"; upgradeMasterCmd; version].

(** The error a logged call returned. *)
Definition eventError (ev : event) : option error :=
  match ev with
  | EvExec _ err => err
  | EvMkdirAll _ err => err
  end.

Definition succeeded (ev : event) : bool :=
  match eventError ev with None => true | Some _ => false end.

(** The error of the call logged last. *)
Definition lastError (l : list event) : option error :=
  match rev l with
  | ev :: _ => eventError ev
  | [] => None
  end.

(** Equality of commands as a test that runs. *)
Fixpoint argsEqb (l l' : list string) : bool :=
  match l, l' with
  | [], [] => true
  | a :: l, b :: l' => String.eqb a b && argsEqb l l'
  | _, _ => false
  end.

Definition cmdEqb (c c' : Cmd) : bool :=
  String.eqb (cmd_name c) (cmd_name c') && argsEqb (cmd_args c) (cmd_args c').

(** [c] was run, with any result. *)
Definition ran (c : Cmd) (ev : event) : bool :=
  match ev with
  | EvExec c' _ => cmdEqb c' c
  | EvMkdirAll _ _ => false
  end.

(** [c] was run and succeeded. *)
Definition ranOk (c : Cmd) (ev : event) : bool :=
  match ev with
  | EvExec c' None => cmdEqb c' c
  | _ => false
  end.

(** One of the two kubeadm upgrade commands was run: the worker one, or the
    master one for [version]. *)
Definition ranKubeadmUpgrade (version : string) (ev : event) : bool :=
  ran workerCmd ev || ran (masterCmd version) ev.

(** Any process at all was started. *)
Definition isExec (ev : event) : bool :=
  match ev with EvExec _ _ => true | EvMkdirAll _ _ => false end.

(** A directory was created. *)
Definition isMkdir (ev : event) : bool :=
  match ev with EvMkdirAll _ _ => true | EvExec _ _ => false end.

(** The directory [path] was created. *)
Definition isMkdirOf (path : string) (ev : event) : bool :=
  match ev with EvMkdirAll p _ => String.eqb p path | EvExec _ _ => false end.

(** A command of the operating-system step. *)
Definition isOsCommand (req : UpgradeRequest) (ev : event) : bool :=
  ran osReleaseCmd ev || ran (rebaseCmd req) ev || ran rebootCmd ev.

(** A command of the orchestrator step, or its directory creation. *)
Definition isKubeCall (req : UpgradeRequest) (ev : event) : bool :=
  ran kubeadmVersionCmd ev || ran kubeletCmd ev || ranKubeadmUpgrade (KubeVersion req) ev
  || ran (touchCmd (markFile (KubeVersion req))) ev
  || match ev with EvMkdirAll path _ => String.eqb path "/var/housekeeper" | _ => false end.

(** The marker command does what markNode expects of it: where it reports
    success, the file exists afterwards. *)
Definition markerCreates {W} (host : Host W) : Prop :=
  forall file w out w',
    spawn host (touchCmd file) w = (inr out, w') -> IsFileExist host file w' = true.

End ServerLog.

Module ControllersLog.
Import Controllers.

Definition eventError (ev : event) : option error :=
  match ev with
  | EvGetUpdate _ err => err
  | EvGetNode _ err => err
  | EvUpdate _ err => err
  | EvCordonOrUncordon _ _ _ err => err
  | EvNodeDrain _ _ err => err
  | EvUpgradeKubeSpec _ err => err
  end.

Definition lastError (l : list event) : option error :=
  match rev l with
  | ev :: _ => eventError ev
  | [] => None
  end.

Definition isAgentCall (ev : event) : bool :=
  match ev with EvUpgradeKubeSpec _ _ => true | _ => false end.

Definition isDrain (ev : event) : bool :=
  match ev with EvNodeDrain _ _ _ => true | _ => false end.

Definition isDrainOk (ev : event) : bool :=
  match ev with EvNodeDrain _ _ None => true | _ => false end.

Definition isCordon (ev : event) : bool :=
  match ev with EvCordonOrUncordon _ _ true _ => true | _ => false end.

Definition isCordonOk (ev : event) : bool :=
  match ev with EvCordonOrUncordon _ _ true None => true | _ => false end.

Definition isUncordon (ev : event) : bool :=
  match ev with EvCordonOrUncordon _ _ false _ => true | _ => false end.

Definition isFailedUncordon (ev : event) : bool :=
  match ev with EvCordonOrUncordon _ _ false (Some _) => true | _ => false end.

Definition isUpdate (ev : event) : bool :=
  match ev with EvUpdate _ _ => true | _ => false end.

(** The node was read. *)
Definition getNodeOk (ev : event) : bool :=
  match ev with EvGetNode _ None => true | _ => false end.

Definition isGet (ev : event) : bool :=
  match ev with EvGetUpdate _ _ => true | EvGetNode _ _ => true | _ => false end.

Definition isFailedCordon (ev : event) : bool :=
  match ev with EvCordonOrUncordon _ _ true (Some _) => true | _ => false end.

(** The error upgradeNodes returns for a step that failed: the agent's error
    as it is, the drain error wrapped by drainNode, the cordon error wrapped
    by cordonOrUncordonNode and then by drainNode. *)
Definition passError (ev : event) : option error :=
  match ev with
  | EvCordonOrUncordon _ node true (Some e) =>
      Some (Errorf ("failed to cordon node " +:+ corev1.Name node) (Errorf "failed to cordon" e))
  | EvNodeDrain _ _ (Some e) => Some (Errorf "unable to drain" e)
  | EvUpgradeKubeSpec _ (Some e) => Some e
  | _ => None
  end.

(** The error of a pass, read off the call it made last. *)
Definition errorOfPass (l : list event) : option error :=
  match rev l with
  | ev :: _ => passError ev
  | [] => None
  end.

(** What Reconcile asks for, given the error it returns. *)
Definition requeueFor (err : option error) : Result :=
  match err with Some _ => RequeueNow | None => RequeueAfter end.

(** The drain of [node] and what follows it: the drain failed and nothing
    follows, or it succeeded and the agent is called with [info]. *)
Definition drainAndPush (drainer : drain.Helper) (info : connection.PushInfo)
    (node : corev1.Node) (calls : list event) : Prop :=
  (exists e, calls = [EvNodeDrain drainer (corev1.Name node) (Some e)])
  \/ (exists r, calls = [EvNodeDrain drainer (corev1.Name node) None;
                         EvUpgradeKubeSpec info r]).

(** The calls of a pass that acts on [node].  A node that is unschedulable
    already is drained at once; any other node is cordoned first, and
    drained unless the cordon failed. *)
Definition drainedThenPushed (drainer : drain.Helper) (info : connection.PushInfo)
    (node : corev1.Node) (calls : list event) : Prop :=
  if corev1.Unschedulable node then drainAndPush drainer info node calls
  else (exists e, calls = [EvCordonOrUncordon drainer node true (Some e)])
       \/ (exists rest, calls = EvCordonOrUncordon drainer node true None :: rest
                        /\ drainAndPush drainer info node rest).

(** What upgradeNodes sends to the agent for an intent. *)
Definition pushInfoOf (up : v1alpha1.Update) : connection.PushInfo :=
  {| connection.KubeVersion := v1alpha1.KubeVersion (v1alpha1.Spec up);
     connection.OSImageURL := v1alpha1.OSImageURL (v1alpha1.Spec up);
     connection.OSVersion := v1alpha1.OSVersion (v1alpha1.Spec up) |}.

(** The drain.Helper upgradeNodes builds for an intent. *)
Definition drainerOf (up : v1alpha1.Update) : drain.Helper :=
  {| drain.Force := v1alpha1.EvictPodForce (v1alpha1.Spec up);
     drain.IgnoreAllDaemonSets := true;
     drain.DeleteEmptyDirData := true;
     drain.GracePeriodSeconds := -1 |}.

(** The drain.Helper refreshNodes builds. *)
Definition uncordoner : drain.Helper :=
  {| drain.Force := false; drain.IgnoreAllDaemonSets := false;
     drain.DeleteEmptyDirData := false; drain.GracePeriodSeconds := -1 |}.

(** A node with the label [key] deleted. *)
Definition withoutLabel (key : string) (node : corev1.Node) : corev1.Node :=
  {| corev1.Name := corev1.Name node;
     corev1.Labels := delete key (corev1.Labels node);
     corev1.Unschedulable := corev1.Unschedulable node;
     corev1.OSImage := corev1.OSImage node |}.

End ControllersLog.

(** * The log only grows *)

Module MonadFacts.
Section Logs.
Context {W E : Type}.
Implicit Types st : Sys W E.

Lemma logsAtLeast_ret {A} (a : A) : logsAtLeast (W:=W) (E:=E) 0 (ret a).
Proof. intros st. simpl. lia. Qed.

Lemma logsAtLeast_panic {A} (e : error) : logsAtLeast (W:=W) (E:=E) (A:=A) 0 (panic e).
Proof. intros st. simpl. lia. Qed.

(** What follows a computation can only add to what it logged; a panic
    stops the computation where it is. *)
Lemma logsAtLeast_bind {A B} n (m : M (Sys W E) A) (f : A -> M (Sys W E) B) :
  logsAtLeast n m -> (forall a, logsAtLeast 0 (f a)) -> logsAtLeast n (bind m f).
Proof.
  intros Hm Hf st. specialize (Hm st). unfold bind.
  destruct (m st) as [a s|e s]; simpl in *; [|exact Hm].
  specialize (Hf a s). lia.
Qed.

Lemma logsAtLeast_weaken {A} n (m : M (Sys W E) A) :
  logsAtLeast n m -> logsAtLeast 0 m.
Proof. intros Hm st. specialize (Hm st). lia. Qed.

End Logs.
End MonadFacts.

(** * The checks on logs are sound *)

Module TraceFacts.
Import Trace.
Section Sound.
Context {E : Type}.
Implicit Types (p q ok : E -> bool) (l : list E).

Lemma followsFrom_sound p q l : forall prev,
  followsFrom p q prev l = true ->
  forall pre ev post, l = (pre ++ ev :: post)%list -> q ev = true ->
    (pre = [] /\ prev = true) \/ exists pre' ev', pre = (pre' ++ [ev'])%list /\ p ev' = true.
Proof.
  induction l as [|a l IH]; intros prev Hf pre ev post Hl Hq.
  - destruct pre; discriminate.
  - simpl in Hf. apply andb_true_iff in Hf as [Himp Hrest].
    destruct pre as [|b pre]; simpl in Hl; injection Hl as -> ->.
    + left. split; [reflexivity|]. rewrite Hq in Himp. exact Himp.
    + right. destruct (IH _ Hrest pre ev post eq_refl Hq) as [[-> Hp]|(pre' & ev' & -> & Hp)].
      * exists [], b. split; [reflexivity|exact Hp].
      * exists (b :: pre'), ev'. split; [reflexivity|exact Hp].
Qed.

Lemma follows_sound p q l : follows p q l = true -> precededBy p q l.
Proof.
  intros Hf pre ev post Hl Hq.
  destruct (followsFrom_sound p q l false Hf pre ev post Hl Hq) as [[_ H]|H];
    [discriminate|exact H].
Qed.

Lemma onlyLast_sound ok l : onlyLast ok l = true -> endsAtFirst ok l.
Proof.
  induction l as [|a l IH]; intros Ho pre ev post Hl Hok.
  - destruct pre; discriminate.
  - destruct pre as [|b pre]; simpl in Hl; injection Hl as -> ->.
    + destruct post as [|c post]; [reflexivity|].
      simpl in Ho. rewrite Hok in Ho. discriminate.
    + assert (Hrest : onlyLast ok (pre ++ ev :: post) = true).
      { simpl in Ho. destruct (pre ++ ev :: post)%list eqn:Hl; [reflexivity|].
        apply andb_true_iff in Ho as [_ Ho]. exact Ho. }
      exact (IH Hrest pre ev post eq_refl Hok).
Qed.

End Sound.
End TraceFacts.

(** * Properties of the node agent *)

Module ServerFacts.
Import Server.

Lemma len_nonempty (s : string) : s ≠ "" -> (0 <? String.length s)%nat = true.
Proof. destruct s as [|a s]; [congruence | reflexivity]. Qed.

Section Generic.
Context {W : Type} (host : Host W) (vlib : VersionLib).

Lemma osStep_skipped req st :
  OsVersion req = "" -> osStep host vlib req st = Done None st.
Proof. intros E. unfold osStep. rewrite E. reflexivity. Qed.

(** With the stamp present the orchestrator step returns at once. *)
Lemma kubeStep_stamped req st :
  IsFileExist host (markFile (KubeVersion req)) (world st) = true ->
  kubeStep host vlib req st = Done None st.
Proof.
  intros Hs. unfold kubeStep.
  destruct (0 <? String.length (KubeVersion req))%nat; [|reflexivity].
  unfold bind, isFileExist. unfold markFile in Hs. rewrite Hs. reflexivity.
Qed.

(** A failing version check or upgrade is returned as it is, and markNode
    is not reached. *)
Lemma kubeStep_failure_not_marked req st err st1 :
  KubeVersion req ≠ "" ->
  IsFileExist host (markFile (KubeVersion req)) (world st) = false ->
  checkKubeVersion host vlib req st = Done (Some err) st1 ->
  kubeStep host vlib req st = Done (Some err) st1.
Proof.
  intros Hne Hs Hc. unfold kubeStep. rewrite (len_nonempty _ Hne).
  unfold bind, isFileExist. unfold markFile in Hs. rewrite Hs, Hc. reflexivity.
Qed.

(** When the version check returns nil, the step goes on to markNode and
    returns what markNode returns. *)
Lemma kubeStep_checked_then_marked req st st1 :
  KubeVersion req ≠ "" ->
  IsFileExist host (markFile (KubeVersion req)) (world st) = false ->
  checkKubeVersion host vlib req st = Done None st1 ->
  kubeStep host vlib req st = markNode host (markFile (KubeVersion req)) st1.
Proof.
  intros Hne Hs Hc. unfold kubeStep. rewrite (len_nonempty _ Hne).
  unfold bind at 1. unfold isFileExist at 1. unfold markFile in Hs. rewrite Hs.
  unfold bind at 1. rewrite Hc. unfold markFile.
  unfold bind, ret. destruct (markNode host _ st1) as [[e|] s|e s]; reflexivity.
Qed.

(** The version check when the requested version is above the installed
    one: the version query is the only command, and the result is nil. *)
Lemma checkKubeVersion_declined req st out w1 v rv :
  spawn host kubeadmVersionCmd (world st) = (inr out, w1) ->
  ParseSemantic vlib out = Some v ->
  ParseSemantic vlib (KubeVersion req) = Some rv ->
  compareInternal vlib v rv = (-1)%Z ->
  checkKubeVersion host vlib req st
  = Done None (MkSys w1 (log st ++ [EvExec kubeadmVersionCmd None])).
Proof.
  intros Hq Hv Hrv Hc.
  unfold checkKubeVersion, runCmd, bind, Output, MustParseSemantic, Compare, ret.
  fold kubeadmVersionCmd. rewrite Hq. simpl. rewrite Hv, Hrv, Hc. reflexivity.
Qed.

(** The operating-system check when the node's own version string is no
    semantic version: MustParseSemantic panics, whatever was requested. *)
Lemma checkOsVersion_current_unparsable req st out w1 :
  spawn host osReleaseCmd (world st) = (inr out, w1) ->
  ParseSemantic vlib out = None ->
  checkOsVersion host vlib req st
  = Panicked (VersionParseError out) (MkSys w1 (log st ++ [EvExec osReleaseCmd None])).
Proof.
  intros Hq Hv.
  unfold checkOsVersion, runCmd, bind, Output, MustParseSemantic, panic, ret.
  fold osReleaseCmd. rewrite Hq. simpl. rewrite Hv. reflexivity.
Qed.

(** The operating-system check when only the requested string is no
    semantic version: Compare's error is returned. *)
Lemma checkOsVersion_requested_unparsable req st out w1 v :
  spawn host osReleaseCmd (world st) = (inr out, w1) ->
  ParseSemantic vlib out = Some v ->
  ParseSemantic vlib (OsVersion req) = None ->
  checkOsVersion host vlib req st
  = Done (Some (VersionParseError (OsVersion req)))
         (MkSys w1 (log st ++ [EvExec osReleaseCmd None])).
Proof.
  intros Hq Hv Hr.
  unfold checkOsVersion, runCmd, bind, Output, MustParseSemantic, Compare, ret.
  fold osReleaseCmd. rewrite Hq. simpl. rewrite Hv, Hr. reflexivity.
Qed.

(** Every call of the agent into its host is logged. *)
Lemma Output_logs c : logsAtLeast 1 (Output host c).
Proof.
  intros st. unfold Output. destruct (spawn host c (world st)) as [r w1]. simpl.
  rewrite length_app. simpl. lia.
Qed.

Lemma mkdirAll_logs path : logsAtLeast 1 (mkdirAll host path).
Proof.
  intros st. unfold mkdirAll. destruct (MkdirAll host path (world st)) as [r w1]. simpl.
  rewrite length_app. simpl. lia.
Qed.

Lemma isFileExist_logs path : logsAtLeast 0 (isFileExist host path).
Proof. intros st. simpl. lia. Qed.

Ltac quiet :=
  repeat first
    [ apply MonadFacts.logsAtLeast_ret
    | apply MonadFacts.logsAtLeast_panic
    | apply isFileExist_logs
    | apply (MonadFacts.logsAtLeast_weaken 1), Output_logs
    | apply (MonadFacts.logsAtLeast_weaken 1), mkdirAll_logs
    | apply MonadFacts.logsAtLeast_bind; [|intros ?]
    | match goal with
      | |- logsAtLeast 0 (match ?x with _ => _ end) => destruct x
      end ].

Lemma runCmd_logs name args : logsAtLeast 1 (runCmd host name args).
Proof. unfold runCmd. apply MonadFacts.logsAtLeast_bind; [apply Output_logs|intros r; quiet]. Qed.

Lemma markNode_logs file : logsAtLeast 0 (markNode host file).
Proof. unfold markNode, runCmd. quiet. Qed.

Lemma upgradeKubeVersion_logs req : logsAtLeast 0 (upgradeKubeVersion host req).
Proof.
  unfold upgradeKubeVersion, isMasterNode, upgradeMasterNodes, upgradeWorkerNodes, Run. quiet.
Qed.

(** The version check starts with the version query, so it logs a call. *)
Lemma checkKubeVersion_logs req : logsAtLeast 1 (checkKubeVersion host vlib req).
Proof.
  unfold checkKubeVersion. apply MonadFacts.logsAtLeast_bind; [apply runCmd_logs|].
  intros [err|out]; [quiet|].
  apply MonadFacts.logsAtLeast_bind; [unfold MustParseSemantic; quiet|].
  intros v. destruct (Compare vlib v (KubeVersion req)) as [cmp [err|]]; [quiet|].
  destruct (cmp =? -1)%Z; [quiet|].
  apply MonadFacts.logsAtLeast_bind; [apply upgradeKubeVersion_logs|intros e; quiet].
Qed.

(** Without the stamp the orchestrator step calls into the host. *)
Lemma kubeStep_unstamped_logs req st :
  KubeVersion req ≠ "" ->
  IsFileExist host (markFile (KubeVersion req)) (world st) = false ->
  length (log st) + 1 <= length (log (final (kubeStep host vlib req st))).
Proof.
  intros Hne Hs. unfold kubeStep. rewrite (len_nonempty _ Hne).
  unfold bind at 1. unfold isFileExist at 1. unfold markFile in Hs. rewrite Hs.
  apply MonadFacts.logsAtLeast_bind; [apply checkKubeVersion_logs|].
  intros [err|]; [quiet|].
  apply MonadFacts.logsAtLeast_bind; [apply markNode_logs|intros e; quiet].
Qed.

(** C2: a call whose orchestrator version is already stamped returns
    success without running anything of the orchestrator step.  The call
    ends in the state its operating-system step left ([st1]), so neither the
    version query nor an upgrade command nor markNode ran; a request without
    an operating-system version leaves the node and the log untouched. *)
Theorem Upgrade_stamp_short_circuit req st st1 :
  KubeVersion req ≠ "" ->
  osStep host vlib req st = Done None st1 ->
  IsFileExist host (markFile (KubeVersion req)) (world st1) = true ->
  Upgrade host vlib req st = Done None st1 /\ (OsVersion req = "" -> st1 = st).
Proof.
  intros Hne Hos Hs. split.
  - unfold Upgrade, bind. rewrite Hos. now apply kubeStep_stamped.
  - intros E. rewrite (osStep_skipped _ _ E) in Hos. congruence.
Qed.

End Generic.

Lemma Upgrade_stamp_short_circuit_witness :
  let req := Scenario.kubeRequest "1.28.0" in
  let st := fresh Scenario.stampedWorker in
  (KubeVersion req ≠ ""
   /\ osStep SimNode.host SemVer.lib req st = Done None st
   /\ IsFileExist SimNode.host (markFile (KubeVersion req)) (world st) = true)
  /\ Upgrade SimNode.host SemVer.lib req st = Done None st.
Proof.
  intros req st.
  assert (H1 : KubeVersion req ≠ "") by discriminate.
  assert (H2 : osStep SimNode.host SemVer.lib req st = Done None st) by reflexivity.
  assert (H3 : IsFileExist SimNode.host (markFile (KubeVersion req)) (world st) = true)
    by (vm_compute; reflexivity).
  split; [auto|].
  exact (proj1 (Upgrade_stamp_short_circuit SimNode.host SemVer.lib req st st H1 H2 H3)).
Defined.

(** C1: the stamp is meant to record an upgrade that ran and succeeded.
    markNode runs [sh -c touch file]: the shell takes the file for the name
    of the command and touch is left without an operand.  On such a node
    version 1.28.0 is requested with kubeadm at v1.28.0: the kubelet
    restart and the kubeadm upgrade run and succeed, the marker command
    fails, the call returns that error and 1.28.0 is left without a stamp;
    the same request issued again runs the upgrade commands again. *)
Theorem Upgrade_succeeds_unstamped :
  exists st',
    Upgrade SimNode.host SemVer.lib (Scenario.kubeRequest "1.28.0") (fresh Scenario.posixWorker)
    = Done (Some (ExitError (touchCmd "/var/housekeeper/1.28.0.stamp"))) st'
    /\ log st' = [EvExec kubeadmVersionCmd None;
                  EvExec kubeletCmd None;
                  EvExec workerCmd None;
                  EvMkdirAll "/var/housekeeper" None;
                  EvExec (touchCmd "/var/housekeeper/1.28.0.stamp")
                         (Some (ExitError (touchCmd "/var/housekeeper/1.28.0.stamp")))]
    /\ ranUpgrade (log st') = true
    /\ marked (markFile "1.28.0") (log st') = false
    /\ IsFileExist SimNode.host (markFile "1.28.0") (world st') = false
    /\ ranUpgrade (log (final (Upgrade SimNode.host SemVer.lib (Scenario.kubeRequest "1.28.0")
                                 (fresh (world st'))))) = true.
Proof.
  destruct (Upgrade SimNode.host SemVer.lib (Scenario.kubeRequest "1.28.0") (fresh Scenario.posixWorker))
    as [a st'|e st'] eqn:E; vm_compute in E; [|discriminate].
  injection E as <- <-. eexists; split; [reflexivity|].
  repeat split; vm_compute; reflexivity.
Qed.

(** C3: requested 1.29.0 above the installed v1.28.0, no stamp.  No upgrade
    command runs, but the call goes on to markNode and returns its error
    instead of success: on a node where the stamp directory cannot be
    created, and on a node where the marker command exits non-zero. *)
Theorem Upgrade_declined_returns_mark_error :
  (exists st',
      Upgrade SimNode.host SemVer.lib (Scenario.kubeRequest "1.29.0") (fresh Scenario.readOnlyWorker)
      = Done (Some (PathError "/var/housekeeper")) st'
      /\ log st' = [EvExec kubeadmVersionCmd None;
                    EvMkdirAll "/var/housekeeper" (Some (PathError "/var/housekeeper"))]
      /\ ranUpgrade (log st') = false)
  /\ (exists st',
        Upgrade SimNode.host SemVer.lib (Scenario.kubeRequest "1.29.0") (fresh Scenario.posixWorker)
        = Done (Some (ExitError (touchCmd "/var/housekeeper/1.29.0.stamp"))) st'
        /\ ranUpgrade (log st') = false).
Proof.
  split.
  - destruct (Upgrade SimNode.host SemVer.lib (Scenario.kubeRequest "1.29.0") (fresh Scenario.readOnlyWorker))
      as [a st'|e st'] eqn:E; vm_compute in E; [|discriminate].
    injection E as <- <-. eexists; split; [reflexivity|].
    repeat split; vm_compute; reflexivity.
  - destruct (Upgrade SimNode.host SemVer.lib (Scenario.kubeRequest "1.29.0") (fresh Scenario.posixWorker))
      as [a st'|e st'] eqn:E; vm_compute in E; [|discriminate].
    injection E as <- <-. eexists; split; [reflexivity|].
    vm_compute; reflexivity.
Qed.

(** C4: the node reports VERSION 22.03 LTS, which is no semantic version,
    and operating-system version 5.3.0 is requested: the call does not
    return an error, it panics in MustParseSemantic. *)
Theorem Upgrade_panics_on_current_os_version :
  exists st',
    Upgrade SimNode.host SemVer.lib (Scenario.osRequest "5.3.0" "registry/os:5.3") (fresh Scenario.ltsWorker)
    = Panicked (VersionParseError "22.03 LTS") st'
    /\ log st' = [EvExec osReleaseCmd None].
Proof.
  destruct (Upgrade SimNode.host SemVer.lib (Scenario.osRequest "5.3.0" "registry/os:5.3") (fresh Scenario.ltsWorker))
    as [a st'|e st'] eqn:E; vm_compute in E; [discriminate|].
  injection E as <- <-. eexists; split; reflexivity.
Qed.

End ServerFacts.

(** * Properties of the reconciler *)

Module ControllersFacts.
Import Controllers.

Section Generic.
Context {W : Type} (cluster : Cluster W) (LabelUpgrading HostName : string).

(** checkUpgrade only reads: it returns a boolean and leaves the state. *)
Lemma checkUpgrade_value osVersion osVersionSpec kubeVersionSpec st :
  checkUpgrade cluster osVersion osVersionSpec kubeVersionSpec st
  = Done (if (0 <? String.length kubeVersionSpec)%nat
          then negb (IsFileExist cluster ("/var/housekeeper/" +:+ kubeVersionSpec +:+ ".stamp") (world st))
          else negb (String.eqb osVersion osVersionSpec)) st.
Proof.
  unfold checkUpgrade.
  destruct (0 <? String.length kubeVersionSpec)%nat; [|reflexivity].
  unfold bind, isFileExist, ret.
  destruct (IsFileExist cluster _ (world st)); reflexivity.
Qed.

(** C5: the upgrade-due predicate.  With an orchestrator version in the
    intent, the upgrade is due exactly when the stamp of that version is
    absent; without one, exactly when the reported and the desired
    operating-system strings differ as strings. *)
Theorem checkUpgrade_due osVersion osVersionSpec kubeVersionSpec st :
  exists due,
    checkUpgrade cluster osVersion osVersionSpec kubeVersionSpec st = Done due st
    /\ (kubeVersionSpec ≠ "" ->
        (due = true <->
         IsFileExist cluster ("/var/housekeeper/" +:+ kubeVersionSpec +:+ ".stamp") (world st) = false))
    /\ (kubeVersionSpec = "" -> (due = true <-> osVersion ≠ osVersionSpec)).
Proof.
  eexists. split; [apply checkUpgrade_value|]. split.
  - intros Hne. rewrite (ServerFacts.len_nonempty _ Hne).
    destruct (IsFileExist cluster _ (world st)); simpl; split; congruence.
  - intros ->. simpl. rewrite negb_true_iff. apply String.eqb_neq.
Qed.

(** reqInstance appends its reads to the log, one or two of them. *)
Lemma reqInstance_log name st up node st1 :
  reqInstance cluster name HostName st = Done (up, node) st1 ->
  exists gets, log st1 = (log st ++ gets)%list
               /\ existsb isAction gets = false /\ existsb isFailedStep gets = false.
Proof.
  unfold reqInstance, invoke, bind, ret.
  destruct (GetUpdate cluster name (world st)) as [[e|u] w1]; simpl.
  - intros [= <- <- <-]. eexists; split; [reflexivity|]. split; reflexivity.
  - destruct (GetNode cluster HostName w1) as [[e|n] w2]; simpl;
      intros [= <- <- <-]; simpl; rewrite <- app_assoc;
      (eexists; split; [reflexivity|]; split; reflexivity).
Qed.

(** C6: a pass over a node without the upgrading label cordons nothing,
    drains nothing and does not call the agent, whether or not an upgrade
    is due, and asks for the delayed re-check without an error. *)
Theorem Reconcile_unsignaled name w up node st1 :
  reqInstance cluster name HostName (fresh w) = Done (up, node) st1 ->
  corev1.Labels node !! LabelUpgrading = None ->
  exists st',
    Reconcile cluster LabelUpgrading HostName name (fresh w) = Done (RequeueAfter, None) st'
    /\ existsb isAction (log st') = false.
Proof.
  intros Hreq Hlab.
  destruct (reqInstance_log _ _ _ _ _ Hreq) as (gets & Hlog & Hact & _). simpl in Hlog.
  unfold Reconcile. unfold bind at 1. rewrite Hreq.
  unfold bind at 1. rewrite checkUpgrade_value.
  set (due := if (0 <? String.length _)%nat then negb _ else negb _). destruct due.
  - unfold upgradeNodes. rewrite Hlab. unfold bind, ret.
    eexists; split; [reflexivity|]. rewrite Hlog. exact Hact.
  - unfold refreshNodes, deleteLabel. rewrite Hlab.
    unfold cordonOrUncordonNode, bind, invoke, ret. simpl.
    destruct (corev1.Unschedulable node); simpl.
    + destruct (RunCordonOrUncordon cluster _ node false (world st1)) as [[e|] w2]; simpl;
        (eexists; split; [reflexivity|]); simpl;
        rewrite Hlog, existsb_app, Hact; reflexivity.
    + eexists; split; [reflexivity|]. rewrite Hlog. exact Hact.
Qed.

(** Destruct the next call into the cluster that the goal is waiting for. *)
Ltac call_cases :=
  match goal with
  | |- context [RunCordonOrUncordon ?c ?d ?n ?b ?w] =>
      destruct (RunCordonOrUncordon c d n b w) as [[?|] ?]
  | |- context [RunNodeDrain ?c ?d ?n ?w] =>
      destruct (RunNodeDrain c d n w) as [[?|] ?]
  | |- context [UpgradeKubeSpec ?c ?i ?w] =>
      destruct (UpgradeKubeSpec c i w) as [[?|] ?]
  | |- context [Update ?c ?n ?w] =>
      destruct (Update c n w) as [[?|?] ?]
  end; simpl.

(** The end of a case: name the result, the state and what was logged. *)
Ltac logged :=
  do 3 eexists; split; [reflexivity|]; simpl;
  split; [rewrite <- ?app_assoc; simpl; try reflexivity; symmetry; apply app_nil_r|].

Lemma reqInstance_total name st :
  exists up node st1, reqInstance cluster name HostName st = Done (up, node) st1.
Proof.
  unfold reqInstance, invoke, bind, ret.
  destruct (GetUpdate cluster name (world st)) as [[e|u] w1]; simpl; eauto.
  destruct (GetNode cluster HostName w1) as [[e|n] w2]; simpl; eauto.
Qed.

(** upgradeNodes returns an error exactly when the cordon, the drain or the
    agent call it made failed. *)
Lemma upgradeNodes_result up node st :
  exists err st' delta,
    upgradeNodes cluster LabelUpgrading up node st = Done err st'
    /\ log st' = (log st ++ delta)%list
    /\ ((err ≠ None /\ existsb isFailedStep delta = true)
        \/ (err = None /\ existsb isFailedStep delta = false)).
Proof.
  unfold upgradeNodes.
  destruct (corev1.Labels node !! LabelUpgrading);
    [|unfold ret; logged; right; split; reflexivity].
  unfold drainNode, cordonOrUncordonNode, bind, invoke, ret; simpl.
  destruct (eqb (corev1.Unschedulable node) true); simpl;
    repeat call_cases; logged;
    solve [left; split; [discriminate|reflexivity] | right; split; reflexivity].
Qed.

(** refreshNodes cordons nothing, drains nothing and does not call the agent. *)
Lemma refreshNodes_result node st :
  exists err st' delta,
    refreshNodes cluster LabelUpgrading node st = Done err st'
    /\ log st' = (log st ++ delta)%list
    /\ existsb isFailedStep delta = false.
Proof.
  unfold refreshNodes, deleteLabel.
  destruct (corev1.Labels node !! LabelUpgrading);
    unfold cordonOrUncordonNode, bind, invoke, ret; simpl.
  - call_cases.
    + destruct (corev1.Unschedulable node); simpl; repeat call_cases; logged; reflexivity.
    + match goal with |- context [corev1.Unschedulable ?n] =>
        destruct (corev1.Unschedulable n) end; simpl; repeat call_cases; logged; reflexivity.
  - destruct (corev1.Unschedulable node); simpl; repeat call_cases; logged; reflexivity.
Qed.

(** C10: with no orchestrator version in the intent the stamps play no part
    and the upgrade is due exactly when the two operating-system strings
    differ; with both targets empty it is due on any node that reports an
    image, and on a labelled node the pass then acts: it cordons the node
    (unless it is unschedulable already), drains it, and when the drain
    succeeded calls the agent with both versions empty.  These are all the
    calls the pass makes after its reads, and its result is the error of
    the step that failed, with the immediate retry, or no error and the
    delayed re-check. *)
Theorem Reconcile_empty_intent name w up node st1 :
  reqInstance cluster name HostName (fresh w) = Done (up, node) st1 ->
  v1alpha1.KubeVersion (v1alpha1.Spec up) = "" ->
  v1alpha1.OSVersion (v1alpha1.Spec up) = "" ->
  corev1.OSImage node ≠ "" ->
  is_Some (corev1.Labels node !! LabelUpgrading) ->
  let drainer := {| drain.Force := v1alpha1.EvictPodForce (v1alpha1.Spec up);
                    drain.IgnoreAllDaemonSets := true;
                    drain.DeleteEmptyDirData := true;
                    drain.GracePeriodSeconds := -1 |} in
  let pushInfo := {| connection.KubeVersion := "";
                     connection.OSImageURL := v1alpha1.OSImageURL (v1alpha1.Spec up);
                     connection.OSVersion := "" |} in
  (forall osVersion osVersionSpec st,
      checkUpgrade cluster osVersion osVersionSpec "" st
      = Done (negb (String.eqb osVersion osVersionSpec)) st)
  /\ checkUpgrade cluster (corev1.OSImage node) "" "" st1 = Done true st1
  /\ exists err st' calls,
       Reconcile cluster LabelUpgrading HostName name (fresh w)
       = Done (ControllersLog.requeueFor err, err) st'
       /\ log st' = (log st1 ++ calls)%list
       /\ ControllersLog.drainedThenPushed drainer pushInfo node calls
       /\ err = ControllersLog.errorOfPass calls.
Proof.
  intros Hreq Hk Ho Himg [l Hlab] drainer pushInfo.
  assert (Hdue : checkUpgrade cluster (corev1.OSImage node) "" "" st1 = Done true st1).
  { rewrite checkUpgrade_value. simpl.
    apply String.eqb_neq in Himg. rewrite Himg. reflexivity. }
  split; [intros; apply checkUpgrade_value|]. split; [exact Hdue|].
  unfold Reconcile. unfold bind at 1. rewrite Hreq.
  unfold bind at 1. rewrite Hk, Ho, Hdue.
  unfold upgradeNodes. rewrite Hlab, Hk, Ho. fold pushInfo.
  replace (if v1alpha1.EvictPodForce (v1alpha1.Spec up) then _ else _) with drainer
    by (unfold drainer; destruct (v1alpha1.EvictPodForce (v1alpha1.Spec up)); reflexivity).
  unfold ControllersLog.drainedThenPushed, ControllersLog.drainAndPush.
  unfold drainNode, cordonOrUncordonNode, invoke, bind, ret. simpl.
  destruct (corev1.Unschedulable node); simpl; repeat call_cases;
    (match goal with |- context [Done (_, ?e) ?s = _] => exists e, s end;
     eexists; split; [reflexivity|]; simpl;
     split; [rewrite <- ?app_assoc; reflexivity|]; split; [eauto 10|reflexivity]).
Qed.

End Generic.

Lemma Reconcile_unsignaled_witness :
  let w := Scenario.clusterOf (Some (Scenario.intent "" "NestOS 23.09")) (Some Scenario.unlabelled) in
  let up := Scenario.intent "" "NestOS 23.09" in
  let st1 := MkSys w [EvGetUpdate "update" None; EvGetNode "node-1" None] in
  (reqInstance SimCluster.cluster "update" "node-1" (fresh w) = Done (up, Scenario.unlabelled) st1
   /\ corev1.Labels Scenario.unlabelled !! "upgrading" = None)
  /\ exists st',
      Reconcile SimCluster.cluster "upgrading" "node-1" "update" (fresh w)
      = Done (RequeueAfter, None) st'
      /\ existsb isAction (log st') = false.
Proof.
  intros w up st1.
  assert (H1 : reqInstance SimCluster.cluster "update" "node-1" (fresh w)
               = Done (up, Scenario.unlabelled) st1) by reflexivity.
  assert (H2 : corev1.Labels Scenario.unlabelled !! "upgrading" = None) by reflexivity.
  split; [auto|].
  exact (Reconcile_unsignaled SimCluster.cluster "upgrading" "node-1" "update" w up
           Scenario.unlabelled st1 H1 H2).
Defined.

(** C7 as stated fails where the intent cannot be read: the read returns an
    error, and the pass still asks for the delayed re-check with no error. *)
Lemma Reconcile_fetch_error_not_retried :
  exists st',
    Reconcile SimCluster.cluster "upgrading" "node-1" "update"
      (fresh (Scenario.clusterOf None (Some Scenario.labelled)))
    = Done (RequeueAfter, None) st'
    /\ log st' = [EvGetUpdate "update" (Some (StatusError "update not found"))]
    /\ existsb isFailedFetch (log st') = true.
Proof.
  eexists. split; [reflexivity|]. split; reflexivity.
Qed.

Lemma Reconcile_empty_intent_witness :
  let w := Scenario.clusterOf (Some (Scenario.intent "" "")) (Some Scenario.labelled) in
  let up := Scenario.intent "" "" in
  let st1 := MkSys w [EvGetUpdate "update" None; EvGetNode "node-1" None] in
  let drainer := {| drain.Force := false; drain.IgnoreAllDaemonSets := true;
                    drain.DeleteEmptyDirData := true; drain.GracePeriodSeconds := -1 |} in
  let pushInfo := {| connection.KubeVersion := ""; connection.OSImageURL := "registry/os:5.3";
                     connection.OSVersion := "" |} in
  (reqInstance SimCluster.cluster "update" "node-1" (fresh w) = Done (up, Scenario.labelled) st1
   /\ v1alpha1.KubeVersion (v1alpha1.Spec up) = ""
   /\ v1alpha1.OSVersion (v1alpha1.Spec up) = ""
   /\ corev1.OSImage Scenario.labelled ≠ ""
   /\ is_Some (corev1.Labels Scenario.labelled !! "upgrading"))
  /\ checkUpgrade SimCluster.cluster (corev1.OSImage Scenario.labelled) "" "" st1 = Done true st1
  /\ exists err st' calls,
       Reconcile SimCluster.cluster "upgrading" "node-1" "update" (fresh w)
       = Done (ControllersLog.requeueFor err, err) st'
       /\ log st' = (log st1 ++ calls)%list
       /\ ControllersLog.drainedThenPushed drainer pushInfo Scenario.labelled calls
       /\ err = ControllersLog.errorOfPass calls.
Proof.
  intros w up st1 drainer pushInfo.
  assert (H1 : reqInstance SimCluster.cluster "update" "node-1" (fresh w)
               = Done (up, Scenario.labelled) st1) by reflexivity.
  assert (H2 : v1alpha1.KubeVersion (v1alpha1.Spec up) = "") by reflexivity.
  assert (H3 : v1alpha1.OSVersion (v1alpha1.Spec up) = "") by reflexivity.
  assert (H4 : corev1.OSImage Scenario.labelled ≠ "") by discriminate.
  assert (H5 : is_Some (corev1.Labels Scenario.labelled !! "upgrading"))
    by (exists ""; vm_compute; reflexivity).
  split; [auto 6|].
  exact (proj2 (Reconcile_empty_intent SimCluster.cluster "upgrading" "node-1" "update" w up
                  Scenario.labelled st1 H1 H2 H3 H4 H5)).
Defined.

End ControllersFacts.

(** * The two stamp checks *)

Module Agreement.

(** C8: agent and reconciler decide on the same marker.  For a version [v]
    both ask whether /var/housekeeper/v.stamp exists; looking at the same
    files, the agent's orchestrator step returns success without a single
    call exactly when the reconciler finds no upgrade due. *)
Theorem stamp_checks_agree {W W' : Type}
    (host : Server.Host W) (cluster : Controllers.Cluster W') (vlib : VersionLib)
    (req : Server.UpgradeRequest) (osVersion osVersionSpec : string)
    (st : Sys W Server.event) (st' : Sys W' Controllers.event) :
  Server.KubeVersion req ≠ "" ->
  Server.IsFileExist host (Server.markFile (Server.KubeVersion req)) (world st)
  = Controllers.IsFileExist cluster (Server.markFile (Server.KubeVersion req)) (world st') ->
  (Server.kubeStep host vlib req st = Done None st
   <-> Controllers.checkUpgrade cluster osVersion osVersionSpec (Server.KubeVersion req) st'
       = Done false st').
Proof.
  intros Hne Hsame.
  rewrite ControllersFacts.checkUpgrade_value, (ServerFacts.len_nonempty _ Hne).
  unfold Server.markFile in Hsame. rewrite <- Hsame.
  destruct (Server.IsFileExist host _ (world st)) eqn:Hs; simpl.
  - split; [reflexivity|]. intros _. now apply ServerFacts.kubeStep_stamped.
  - split; [|discriminate]. intros Hk. exfalso.
    pose proof (ServerFacts.kubeStep_unstamped_logs host vlib req st Hne Hs) as Hlen.
    rewrite Hk in Hlen. simpl in Hlen. lia.
Qed.

Lemma stamp_checks_agree_witness :
  let req := Scenario.kubeRequest "1.28.0" in
  let st := fresh Scenario.stampedWorker in
  let st' := fresh Scenario.stampedCluster in
  (Server.KubeVersion req ≠ ""
   /\ Server.IsFileExist SimNode.host (Server.markFile (Server.KubeVersion req)) (world st)
      = Controllers.IsFileExist SimCluster.cluster (Server.markFile (Server.KubeVersion req)) (world st'))
  /\ (Server.kubeStep SimNode.host SemVer.lib req st = Done None st
      <-> Controllers.checkUpgrade SimCluster.cluster "NestOS 22.03" "" (Server.KubeVersion req) st'
          = Done false st').
Proof.
  intros req st st'.
  assert (H1 : Server.KubeVersion req ≠ "") by discriminate.
  assert (H2 : Server.IsFileExist SimNode.host (Server.markFile (Server.KubeVersion req)) (world st)
               = Controllers.IsFileExist SimCluster.cluster
                   (Server.markFile (Server.KubeVersion req)) (world st'))
    by (vm_compute; reflexivity).
  split; [auto|].
  exact (stamp_checks_agree SimNode.host SimCluster.cluster SemVer.lib req
           "NestOS 22.03" "" st st' H1 H2).
Defined.

End Agreement.

(** * More about the node agent: what the log of a call looks like *)

Module ServerMore.
Import Server ServerLog Trace.

Lemma argsEqb_eq (l l' : list string) : argsEqb l l' = true <-> l = l'.
Proof.
  revert l'. induction l as [|a l IH]; intros [|b l']; simpl; try (split; congruence).
  rewrite andb_true_iff, String.eqb_eq, IH. split; [intros [-> ->]|intros [= -> ->]]; auto.
Qed.

(** The test on commands decides their equality. *)
Lemma cmdEqb_eq (c c' : Cmd) : cmdEqb c c' = true <-> c = c'.
Proof.
  destruct c as [n a], c' as [n' a']. unfold cmdEqb. simpl.
  rewrite andb_true_iff, String.eqb_eq, argsEqb_eq.
  split; [intros [-> ->]|intros [= -> ->]]; auto.
Qed.

Ltac unfold_agent :=
  unfold Upgrade, osStep, kubeStep, checkOsVersion, checkKubeVersion, upgradeOSVersion,
    upgradeKubeVersion, isMasterNode, upgradeMasterNodes, upgradeWorkerNodes, markNode,
    runCmd, Run, Output, mkdirAll, isFileExist, MustParseSemantic, Compare,
    bind, ret, panic, fresh.

(** Split on the next answer of the host or of the version library. *)
Ltac host_case :=
  match goal with
  | |- context [(0 <? String.length ?s)%nat] => destruct (0 <? String.length s)%nat eqn:?
  | |- context [spawn ?h ?c ?w] => destruct (spawn h c w) as [[?|?] ?] eqn:?
  | |- context [MkdirAll ?h ?p ?w] => destruct (MkdirAll h p w) as [[?|] ?] eqn:?
  | |- context [IsFileExist ?h ?p ?w] => destruct (IsFileExist h p w) eqn:?
  | |- context [ParseSemantic ?l ?s] => destruct (ParseSemantic l s) eqn:?
  | |- context [(?a =? ?b)%Z] => destruct (a =? b)%Z eqn:?
  end.

(** Run a check on a log that is written out. *)
Ltac check_log :=
  cbv [follows followsFrom onlyLast ranOk ran ranKubeadmUpgrade isOsCommand isKubeCall isExec isMkdir
       isMkdirOf
       succeeded eventError lastError rev app forallb existsb cmdEqb argsEqb cmd_name cmd_args
       rebaseCmd rebootCmd masterCmd kubeletCmd workerCmd touchCmd kubeadmVersionCmd osReleaseCmd
       markFile sh kubeadmCmd upgradeMasterCmd upgradeWorkerCmd kubeletUpdateCmd adminFile ostreeImage
       String.eqb Ascii.eqb Bool.eqb String.append andb orb implb negb];
  rewrite ?String.eqb_refl; try reflexivity.

Section Generic.
Context {W : Type} (host : Host W) (vlib : VersionLib).

(** All paths of a call, each with its log, checked at once. *)
Lemma Upgrade_checks req w :
  let o := Upgrade host vlib req (fresh w) in
  let l := log (final o) in
  follows (ranOk (rebaseCmd req)) (ran rebootCmd) l = true
  /\ follows (ranOk kubeletCmd) (ranKubeadmUpgrade (KubeVersion req)) l = true
  /\ follows (ranOk kubeadmVersionCmd) (ran kubeletCmd) l = true
  /\ forallb (fun ev => isOsCommand req ev || isKubeCall req ev) l = true
  /\ onlyLast succeeded l = true
  /\ match o with
     | Done None _ => forallb succeeded l = true
     | Done (Some e) _ =>
         lastError l = Some e
         \/ e = VersionParseError (OsVersion req) \/ e = VersionParseError (KubeVersion req)
     | Panicked _ _ => True
     end.
Proof.
  intros o l. subst o l. unfold_agent.
  repeat (host_case; simpl).
  all: repeat split; check_log; auto.
Qed.

(** X1: in every call the reboot is issued directly after a rebase that
    succeeded, and that rebase is the one to the image of the request. *)
Theorem Upgrade_reboot_after_rebase req w :
  precededBy (ranOk (rebaseCmd req)) (ran rebootCmd)
    (log (final (Upgrade host vlib req (fresh w)))).
Proof. apply TraceFacts.follows_sound. apply (Upgrade_checks req w). Qed.

(** X2: a kubeadm upgrade command (the worker one, or the master one for
    the requested version) runs directly after a kubelet restart that
    succeeded, and the kubelet restart directly after a version query that
    succeeded. *)
Theorem Upgrade_kubeadm_after_kubelet req w :
  let l := log (final (Upgrade host vlib req (fresh w))) in
  precededBy (ranOk kubeletCmd) (ranKubeadmUpgrade (KubeVersion req)) l
  /\ precededBy (ranOk kubeadmVersionCmd) (ran kubeletCmd) l.
Proof.
  split; apply TraceFacts.follows_sound; apply (Upgrade_checks req w).
Qed.

(** X3: a call makes no call into its host beyond these: the os-release
    query, the rebase to the requested image and the reboot; the kubeadm
    version query, the kubelet restart, the two kubeadm upgrade commands
    (the master one with the requested version), the creation of
    /var/housekeeper and the marker command for the requested version. *)
Theorem Upgrade_runs_only_its_commands req w ev :
  In ev (log (final (Upgrade host vlib req (fresh w)))) ->
  isOsCommand req ev = true \/ isKubeCall req ev = true.
Proof.
  intros Hin. apply orb_true_iff.
  pose proof (Upgrade_checks req w) as (_ & _ & _ & Hall & _).
  rewrite forallb_forall in Hall. exact (Hall ev Hin).
Qed.

(** X4: the agent stops at the first call that fails: in the log of a call,
    returned or panicked, nothing follows a failed call. *)
Theorem Upgrade_ends_at_first_failure req w :
  endsAtFirst succeeded (log (final (Upgrade host vlib req (fresh w)))).
Proof. apply TraceFacts.onlyLast_sound. apply (Upgrade_checks req w). Qed.

(** X5: a call that returns nil made only calls that succeeded; a call that
    returns an error returns the error of the call it made last, as it is,
    or the parse error of one of the two requested versions. *)
Theorem Upgrade_result_and_log req w r st' :
  Upgrade host vlib req (fresh w) = Done r st' ->
  match r with
  | None => forall ev, In ev (log st') -> eventError ev = None
  | Some e =>
      lastError (log st') = Some e
      \/ e = VersionParseError (OsVersion req) \/ e = VersionParseError (KubeVersion req)
  end.
Proof.
  intros H. pose proof (Upgrade_checks req w) as (_ & _ & _ & _ & _ & Hr).
  simpl in Hr. rewrite H in Hr. simpl in Hr. destruct r as [e|]; [exact Hr|].
  intros ev Hin. rewrite forallb_forall in Hr. specialize (Hr ev Hin).
  unfold succeeded in Hr. destruct (eventError ev); [discriminate|reflexivity].
Qed.

(** X6: the role decides the upgrade command.  On a node with
    /etc/kubernetes/admin.conf the worker command is never run, on a node
    without it the master command is never run. *)
Theorem upgradeKubeVersion_role req w :
  existsb (ran (if IsFileExist host adminFile w then workerCmd else masterCmd (KubeVersion req)))
    (log (final (upgradeKubeVersion host req (fresh w)))) = false.
Proof.
  unfold_agent. simpl. repeat (host_case; simpl); check_log; try congruence.
Qed.

(** X7: markNode creates /var/housekeeper exactly when it is absent, and it
    creates no other directory. *)
Theorem markNode_mkdir_iff_absent file w :
  let l := log (final (markNode host file (fresh w))) in
  existsb (isMkdirOf "/var/housekeeper") l = negb (IsFileExist host "/var/housekeeper" w)
  /\ forallb (fun ev => implb (isMkdir ev) (isMkdirOf "/var/housekeeper" ev)) l = true.
Proof.
  unfold_agent. simpl. repeat (host_case; simpl); split; check_log; try congruence.
Qed.

(** X8: the operating-system step rebases exactly when the reported and the
    requested version differ, in either direction: also to an older
    version. *)
Theorem osStep_rebases_iff_differs req w out w1 v rv :
  OsVersion req ≠ "" ->
  spawn host osReleaseCmd w = (inr out, w1) ->
  ParseSemantic vlib out = Some v ->
  ParseSemantic vlib (OsVersion req) = Some rv ->
  existsb (ran (rebaseCmd req)) (log (final (osStep host vlib req (fresh w))))
  = negb (compareInternal vlib v rv =? 0)%Z.
Proof.
  intros Hne Hq Hv Hr. unfold osReleaseCmd in Hq.
  unfold_agent. rewrite (ServerFacts.len_nonempty _ Hne). simpl.
  rewrite Hq. simpl. rewrite Hv, Hr.
  repeat (host_case; simpl); check_log.
Qed.

(** X9: without a stamp, the orchestrator step restarts the kubelet (and
    goes on to kubeadm) exactly when the installed kubeadm is not older
    than the requested version: also when it is newer. *)
Theorem kubeStep_upgrades_iff_not_older req w out w1 v rv :
  KubeVersion req ≠ "" ->
  IsFileExist host (markFile (KubeVersion req)) w = false ->
  spawn host kubeadmVersionCmd w = (inr out, w1) ->
  ParseSemantic vlib out = Some v ->
  ParseSemantic vlib (KubeVersion req) = Some rv ->
  existsb (ran kubeletCmd) (log (final (kubeStep host vlib req (fresh w))))
  = negb (compareInternal vlib v rv =? -1)%Z.
Proof.
  intros Hne Hs Hq Hv Hr. unfold kubeadmVersionCmd in Hq. unfold markFile in Hs.
  unfold_agent. rewrite (ServerFacts.len_nonempty _ Hne). simpl.
  rewrite Hs. simpl. rewrite Hq. simpl. rewrite Hv, Hr.
  repeat (host_case; simpl); check_log.
Qed.

(** X10: a call makes no call into its host exactly when it has nothing to
    do: no operating-system version is requested, and either no orchestrator
    version is requested or that version is already stamped. *)
Theorem Upgrade_silent_iff req w :
  log (final (Upgrade host vlib req (fresh w))) = []
  <-> OsVersion req = ""
      /\ (KubeVersion req = "" \/ IsFileExist host (markFile (KubeVersion req)) w = true).
Proof.
  unfold markFile. unfold_agent.
  destruct (OsVersion req) as [|a s]; destruct (KubeVersion req) as [|b t]; simpl;
    repeat (host_case; simpl);
    intuition (try discriminate; try congruence).
Qed.

(** A successful call leaves the stamp of its version behind. *)
Lemma success_is_stamped req w :
  markerCreates host ->
  KubeVersion req ≠ "" ->
  match Upgrade host vlib req (fresh w) with
  | Done None st' => IsFileExist host (markFile (KubeVersion req)) (world st') = true
  | _ => True
  end.
Proof.
  intros Hm Hne. unfold markerCreates, touchCmd in Hm. unfold markFile.
  unfold_agent. rewrite (ServerFacts.len_nonempty _ Hne). simpl.
  repeat (host_case; simpl); try exact I; try reflexivity;
    repeat match goal with
    | H : spawn host {| cmd_name := sh; cmd_args := [_; "touch"; _] |} _ = (inr _, _) |- _ =>
        apply Hm in H
    end; congruence.
Qed.

(** X11: where the marker command does what markNode expects, a call for an
    orchestrator version that returned nil has left the stamp of that
    version, and the same request (without an operating-system version)
    issued again on the node as it is now returns nil without a single call
    into the host. *)
Theorem Upgrade_twice req w st' :
  markerCreates host ->
  KubeVersion req ≠ "" ->
  Upgrade host vlib req (fresh w) = Done None st' ->
  IsFileExist host (markFile (KubeVersion req)) (world st') = true
  /\ (OsVersion req = "" ->
      Upgrade host vlib req (fresh (world st')) = Done None (fresh (world st'))).
Proof.
  intros Hm Hne H. pose proof (success_is_stamped req w Hm Hne) as Hs.
  rewrite H in Hs. split; [exact Hs|].
  intros Hos. unfold Upgrade, bind.
  rewrite (ServerFacts.osStep_skipped host vlib req _ Hos).
  now apply ServerFacts.kubeStep_stamped.
Qed.

End Generic.

(** On the simulated node the marker command creates its file. *)
Lemma SimNode_markerCreates : markerCreates SimNode.host.
Proof.
  intros file w out w' H. simpl in *. unfold SimNode.spawn in H.
  destruct (bool_decide (touchCmd file ∈ SimNode.failing w)); [discriminate|].
  rewrite (bool_decide_eq_false_2 (touchCmd file = kubeadmVersionCmd)) in H by discriminate.
  rewrite (bool_decide_eq_false_2 (touchCmd file = osReleaseCmd)) in H by discriminate.
  unfold SimNode.isMarker in H. simpl in H.
  rewrite ?bool_decide_eq_true_2 in H by reflexivity. simpl in H.
  injection H as _ <-. simpl. apply bool_decide_eq_true_2. set_solver.
Qed.

Lemma Upgrade_runs_only_its_commands_witness :
  let req := Scenario.kubeRequest "1.28.0" in
  let ev := EvExec workerCmd None in
  In ev (log (final (Upgrade SimNode.host SemVer.lib req (fresh Scenario.worker))))
  /\ (isOsCommand req ev = true \/ isKubeCall req ev = true).
Proof.
  intros req ev.
  assert (H : In ev (log (final (Upgrade SimNode.host SemVer.lib req (fresh Scenario.worker)))))
    by (vm_compute; auto 10).
  split; [exact H|].
  exact (Upgrade_runs_only_its_commands SimNode.host SemVer.lib req Scenario.worker ev H).
Defined.

Lemma Upgrade_result_and_log_witness :
  let req := Scenario.kubeRequest "1.28.0" in
  let st' := final (Upgrade SimNode.host SemVer.lib req (fresh Scenario.worker)) in
  Upgrade SimNode.host SemVer.lib req (fresh Scenario.worker) = Done None st'
  /\ (forall ev, In ev (log st') -> eventError ev = None).
Proof.
  intros req st'.
  assert (H : Upgrade SimNode.host SemVer.lib req (fresh Scenario.worker) = Done None st')
    by (vm_compute; reflexivity).
  split; [exact H|].
  exact (Upgrade_result_and_log SimNode.host SemVer.lib req Scenario.worker None st' H).
Defined.

Lemma osStep_rebases_iff_differs_witness :
  let req := Scenario.osRequest "5.3.0" "registry/os:5.3" in
  let v := {| SemVer.major := 5; SemVer.minor := 2; SemVer.patch := 0 |} in
  let rv := {| SemVer.major := 5; SemVer.minor := 3; SemVer.patch := 0 |} in
  (OsVersion req ≠ ""
   /\ spawn SimNode.host osReleaseCmd Scenario.worker = (inr "5.2.0", Scenario.worker)
   /\ ParseSemantic SemVer.lib "5.2.0" = Some v
   /\ ParseSemantic SemVer.lib (OsVersion req) = Some rv)
  /\ existsb (ran (rebaseCmd req))
       (log (final (osStep SimNode.host SemVer.lib req (fresh Scenario.worker))))
     = negb (compareInternal SemVer.lib v rv =? 0)%Z.
Proof.
  intros req v rv.
  assert (H1 : OsVersion req ≠ "") by discriminate.
  assert (H2 : spawn SimNode.host osReleaseCmd Scenario.worker = (inr "5.2.0", Scenario.worker))
    by reflexivity.
  assert (H3 : ParseSemantic SemVer.lib "5.2.0" = Some v) by reflexivity.
  assert (H4 : ParseSemantic SemVer.lib (OsVersion req) = Some rv) by reflexivity.
  split; [auto|].
  exact (osStep_rebases_iff_differs SimNode.host SemVer.lib req Scenario.worker
           "5.2.0" Scenario.worker v rv H1 H2 H3 H4).
Defined.

Lemma kubeStep_upgrades_iff_not_older_witness :
  let req := Scenario.kubeRequest "1.27.3" in
  let v := {| SemVer.major := 1; SemVer.minor := 28; SemVer.patch := 0 |} in
  let rv := {| SemVer.major := 1; SemVer.minor := 27; SemVer.patch := 3 |} in
  (KubeVersion req ≠ ""
   /\ IsFileExist SimNode.host (markFile (KubeVersion req)) Scenario.worker = false
   /\ spawn SimNode.host kubeadmVersionCmd Scenario.worker = (inr "v1.28.0", Scenario.worker)
   /\ ParseSemantic SemVer.lib "v1.28.0" = Some v
   /\ ParseSemantic SemVer.lib (KubeVersion req) = Some rv)
  /\ existsb (ran kubeletCmd)
       (log (final (kubeStep SimNode.host SemVer.lib req (fresh Scenario.worker))))
     = negb (compareInternal SemVer.lib v rv =? -1)%Z.
Proof.
  intros req v rv.
  assert (H1 : KubeVersion req ≠ "") by discriminate.
  assert (H2 : IsFileExist SimNode.host (markFile (KubeVersion req)) Scenario.worker = false)
    by (vm_compute; reflexivity).
  assert (H3 : spawn SimNode.host kubeadmVersionCmd Scenario.worker
               = (inr "v1.28.0", Scenario.worker)) by reflexivity.
  assert (H4 : ParseSemantic SemVer.lib "v1.28.0" = Some v) by reflexivity.
  assert (H5 : ParseSemantic SemVer.lib (KubeVersion req) = Some rv) by reflexivity.
  split; [auto 6|].
  exact (kubeStep_upgrades_iff_not_older SimNode.host SemVer.lib req Scenario.worker
           "v1.28.0" Scenario.worker v rv H1 H2 H3 H4 H5).
Defined.

Lemma Upgrade_twice_witness :
  let req := Scenario.kubeRequest "1.28.0" in
  let st' := final (Upgrade SimNode.host SemVer.lib req (fresh Scenario.worker)) in
  (markerCreates SimNode.host
   /\ KubeVersion req ≠ ""
   /\ Upgrade SimNode.host SemVer.lib req (fresh Scenario.worker) = Done None st')
  /\ IsFileExist SimNode.host (markFile (KubeVersion req)) (world st') = true
  /\ (OsVersion req = "" ->
      Upgrade SimNode.host SemVer.lib req (fresh (world st')) = Done None (fresh (world st'))).
Proof.
  intros req st'.
  assert (H1 : KubeVersion req ≠ "") by discriminate.
  assert (H2 : Upgrade SimNode.host SemVer.lib req (fresh Scenario.worker) = Done None st')
    by (vm_compute; reflexivity).
  split; [auto using SimNode_markerCreates|].
  exact (Upgrade_twice SimNode.host SemVer.lib req Scenario.worker st'
           SimNode_markerCreates H1 H2).
Defined.

End ServerMore.

(** * More about the reconciler: what the log of a pass looks like *)

Module ControllersMore.
Import Controllers ControllersLog Trace.

Ltac unfold_pass :=
  unfold Reconcile, reqInstance, checkUpgrade, upgradeNodes, refreshNodes, deleteLabel,
    drainNode, cordonOrUncordonNode, invoke, isFileExist, bind, ret, fresh.

(** Split on the next answer of the cluster, or on the next field read. *)
Ltac cluster_case :=
  match goal with
  | |- context [GetUpdate ?c ?n ?w] => destruct (GetUpdate c n w) as [[?|?] ?] eqn:?
  | |- context [GetNode ?c ?n ?w] => destruct (GetNode c n w) as [[?|?] ?] eqn:?
  | |- context [(0 <? String.length ?s)%nat] => destruct (0 <? String.length s)%nat eqn:?
  | |- context [IsFileExist ?c ?p ?w] => destruct (IsFileExist c p w) eqn:?
  | |- context [String.eqb ?a ?b] => destruct (String.eqb a b) eqn:?
  | |- context [match ?s with EmptyString => _ | String _ _ => _ end] => destruct s eqn:?
  | |- context [corev1.Labels ?n !! ?k] => destruct (corev1.Labels n !! k) eqn:?
  | |- context [v1alpha1.EvictPodForce ?u] => destruct (v1alpha1.EvictPodForce u) eqn:?
  | |- context [corev1.Unschedulable ?n] => destruct (corev1.Unschedulable n) eqn:?
  | |- context [RunCordonOrUncordon ?c ?d ?n ?b ?w] =>
      destruct (RunCordonOrUncordon c d n b w) as [[?|] ?] eqn:?
  | |- context [RunNodeDrain ?c ?d ?n ?w] => destruct (RunNodeDrain c d n w) as [[?|] ?] eqn:?
  | |- context [UpgradeKubeSpec ?c ?i ?w] => destruct (UpgradeKubeSpec c i w) as [[?|] ?] eqn:?
  | |- context [Update ?c ?n ?w] => destruct (Update c n w) as [[?|?] ?] eqn:?
  end.

Ltac run_pass := unfold_pass; simpl; repeat (cluster_case; simpl; rewrite ?lookup_empty; simpl).

Section Generic.
Context {W : Type} (cluster : Cluster W) (LabelUpgrading HostName : string).

(** All paths of a pass, each with its log, checked at once. *)
Lemma Reconcile_checks name w :
  let o := Reconcile cluster LabelUpgrading HostName name (fresh w) in
  let l := log (final o) in
  follows isDrainOk isAgentCall l = true
  /\ follows (fun ev => isCordonOk ev || getNodeOk ev) isDrain l = true
  /\ (length (filter isAgentCall l) <=? 1)%nat = true
  /\ (length (filter isDrain l) <=? 1)%nat = true
  /\ (length (filter isCordon l) <=? 1)%nat = true
  /\ match o with
     | Done (_, Some err) st' =>
         exists e, lastError (log st') = Some e /\ (existsb isAgentCall (log st') = true -> err = e)
     | _ => True
     end.
Proof.
  intros o l. subst o l. run_pass.
  all: repeat split; try reflexivity.
  all: eexists; split; [reflexivity|]; simpl; intros; reflexivity || discriminate.
Qed.

(** C7, as the code has it: the pass asks for an immediate retry exactly
    when its cordon, its drain or its call of the agent failed, and the
    error it returns is then the error of that step: the agent's as it is,
    the drain's and the cordon's wrapped.  In every other case (a failed
    read or a failed restore among them) it asks for the delayed re-check
    and returns no error.  The pass always returns. *)
Theorem Reconcile_requeue name w :
  exists res err st',
    Reconcile cluster LabelUpgrading HostName name (fresh w) = Done (res, err) st'
    /\ err = errorOfPass (log st')
    /\ res = requeueFor err
    /\ ((existsb isFailedStep (log st') = true /\ res = RequeueNow /\ err ≠ None)
        \/ (existsb isFailedStep (log st') = false /\ res = RequeueAfter /\ err = None)).
Proof.
  run_pass.
  all: do 3 eexists; split; [reflexivity|]; simpl.
  all: split; [reflexivity|]; split; [reflexivity|].
  all: solve [left; repeat split; discriminate | right; repeat split].
Qed.

(** X12: in every pass the node agent is called only directly after a drain
    that succeeded.  A drain happens only in a pass that read both the
    intent and the node, and it runs only directly after a cordon that
    succeeded or, when the node that was read is unschedulable already,
    directly after the read of the node. *)
Theorem Reconcile_agent_after_drain name w :
  let l := log (final (Reconcile cluster LabelUpgrading HostName name (fresh w))) in
  precededBy isDrainOk isAgentCall l
  /\ (existsb isDrain l = true ->
      exists up w1 node w2,
        GetUpdate cluster name w = (inr up, w1) /\ GetNode cluster HostName w1 = (inr node, w2))
  /\ (forall up w1 node w2,
        GetUpdate cluster name w = (inr up, w1) ->
        GetNode cluster HostName w1 = (inr node, w2) ->
        precededBy (fun ev => isCordonOk ev || (corev1.Unschedulable node && getNodeOk ev))
          isDrain l).
Proof.
  intros l. subst l. split; [|split].
  - apply TraceFacts.follows_sound. apply (Reconcile_checks name w).
  - run_pass; intros H; try discriminate H; eauto 10.
  - intros up w1 node w2 Hu Hn. apply TraceFacts.follows_sound.
    unfold_pass. simpl. rewrite Hu. simpl. rewrite Hn. simpl.
    repeat (cluster_case; simpl); reflexivity.
Qed.

(** X13: a pass cordons at most once, drains at most once and calls the node
    agent at most once. *)
Theorem Reconcile_at_most_once name w :
  let l := log (final (Reconcile cluster LabelUpgrading HostName name (fresh w))) in
  length (filter isCordon l) <= 1
  /\ length (filter isDrain l) <= 1
  /\ length (filter isAgentCall l) <= 1.
Proof.
  pose proof (Reconcile_checks name w) as (_ & _ & Ha & Hd & Hc & _).
  repeat split; apply Nat.leb_le; assumption.
Qed.

(** X14: the error of a pass is the error of its last call, and when that
    call was the call of the node agent, the agent's error is returned as it
    is, not wrapped. *)
Theorem Reconcile_agent_error_verbatim name w res err st' :
  Reconcile cluster LabelUpgrading HostName name (fresh w) = Done (res, Some err) st' ->
  exists e, lastError (log st') = Some e
            /\ (existsb isAgentCall (log st') = true -> err = e).
Proof.
  intros H. pose proof (Reconcile_checks name w) as (_ & _ & _ & _ & _ & Hr).
  simpl in Hr. rewrite H in Hr. exact Hr.
Qed.

(** X15: what a pass does, it does with what it read: the agent is called
    with the three fields of the intent, the drain helper forces eviction
    exactly when the intent says so, and cordon and drain are for the node
    that was read. *)
Theorem Reconcile_pushes_intent name w up w1 node w2 :
  GetUpdate cluster name w = (inr up, w1) ->
  GetNode cluster HostName w1 = (inr node, w2) ->
  Forall (fun ev =>
            match ev with
            | EvUpgradeKubeSpec info _ => info = pushInfoOf up
            | EvNodeDrain d n _ => d = drainerOf up /\ n = corev1.Name node
            | EvCordonOrUncordon d n true _ => d = drainerOf up /\ n = node
            | _ => True
            end)
    (log (final (Reconcile cluster LabelUpgrading HostName name (fresh w)))).
Proof.
  intros Hu Hn. unfold drainerOf, pushInfoOf. unfold_pass. simpl.
  rewrite Hu. simpl. rewrite Hn. simpl.
  repeat (cluster_case; simpl); repeat constructor.
Qed.

(** X16: a pass that cannot read the intent reads nothing else and does
    nothing: its only call is the failed read, and it asks for the delayed
    re-check. *)
Theorem Reconcile_missing_intent name w e w1 :
  GetUpdate cluster name w = (inl e, w1) ->
  Reconcile cluster LabelUpgrading HostName name (fresh w)
  = Done (RequeueAfter, None) (MkSys w1 [EvGetUpdate name (Some e)]).
Proof.
  intros Hu. unfold_pass. simpl. rewrite Hu. simpl. rewrite ?lookup_empty. reflexivity.
Qed.

(** X17: a pass that cannot read the node does nothing either, whatever the
    intent says: its only calls are the two reads. *)
Theorem Reconcile_missing_node name w up w1 e w2 :
  GetUpdate cluster name w = (inr up, w1) ->
  GetNode cluster HostName w1 = (inl e, w2) ->
  Reconcile cluster LabelUpgrading HostName name (fresh w)
  = Done (RequeueAfter, None)
         (MkSys w2 [EvGetUpdate name None; EvGetNode HostName (Some e)]).
Proof.
  intros Hu Hn. unfold_pass. simpl. rewrite Hu. simpl. rewrite Hn. simpl.
  repeat (cluster_case; simpl; rewrite ?lookup_empty; simpl); reflexivity.
Qed.

(** X18: when checkUpgrade finds no upgrade due (the version is stamped, or
    the operating-system strings are equal), the pass cordons nothing,
    drains nothing and does not call the agent, label or no label, and asks
    for the delayed re-check. *)
Theorem Reconcile_not_due_never_acts name w up w1 node w2 :
  GetUpdate cluster name w = (inr up, w1) ->
  GetNode cluster HostName w1 = (inr node, w2) ->
  checkUpgrade cluster (corev1.OSImage node) (v1alpha1.OSVersion (v1alpha1.Spec up))
    (v1alpha1.KubeVersion (v1alpha1.Spec up)) (fresh w2) = Done false (fresh w2) ->
  exists st',
    Reconcile cluster LabelUpgrading HostName name (fresh w) = Done (RequeueAfter, None) st'
    /\ existsb isAction (log st') = false.
Proof.
  intros Hu Hn Hdue. rewrite ControllersFacts.checkUpgrade_value in Hdue.
  injection Hdue as Hdue. simpl in Hdue.
  unfold Reconcile, reqInstance, invoke, bind, ret, fresh. simpl.
  rewrite Hu. simpl. rewrite Hn. simpl.
  rewrite ControllersFacts.checkUpgrade_value. simpl. rewrite Hdue.
  unfold refreshNodes, deleteLabel, cordonOrUncordonNode, invoke, bind, ret. simpl.
  repeat (cluster_case; simpl); eexists; split; reflexivity.
Qed.

(** X19: refreshNodes updates the node exactly when it carries the upgrading
    label, and what it sends is the node with that label deleted and every
    other label kept. *)
Theorem refreshNodes_removes_label node w :
  let l := log (final (refreshNodes cluster LabelUpgrading node (fresh w))) in
  (existsb isUpdate l = true <-> is_Some (corev1.Labels node !! LabelUpgrading))
  /\ Forall (fun ev => match ev with
                       | EvUpdate n _ => n = withoutLabel LabelUpgrading node
                       | _ => True
                       end) l
  /\ corev1.Labels (withoutLabel LabelUpgrading node) !! LabelUpgrading = None
  /\ (forall k, k ≠ LabelUpgrading ->
        corev1.Labels (withoutLabel LabelUpgrading node) !! k = corev1.Labels node !! k).
Proof.
  intros l. subst l.
  assert (Hd : corev1.Labels (withoutLabel LabelUpgrading node) !! LabelUpgrading = None)
    by apply lookup_delete_eq.
  assert (Ho : forall k, k ≠ LabelUpgrading ->
                 corev1.Labels (withoutLabel LabelUpgrading node) !! k = corev1.Labels node !! k)
    by (intros k Hk; simpl; now apply lookup_delete_ne).
  enough (H : (existsb isUpdate (log (final (refreshNodes cluster LabelUpgrading node (fresh w))))
               = true <-> is_Some (corev1.Labels node !! LabelUpgrading))
              /\ Forall (fun ev => match ev with
                                   | EvUpdate n _ => n = withoutLabel LabelUpgrading node
                                   | _ => True
                                   end)
                   (log (final (refreshNodes cluster LabelUpgrading node (fresh w)))))
    by (destruct H; auto).
  clear Hd Ho. unfold withoutLabel. unfold_pass. simpl.
  destruct (corev1.Labels node !! LabelUpgrading) as [v|] eqn:Hl; simpl;
    repeat (cluster_case; simpl);
    (split; [split; [intros; eauto; try discriminate | intros H; try reflexivity;
                                                        destruct H; discriminate]
            | repeat constructor]).
Qed.

(** X20: refreshNodes fails exactly when its uncordon failed; a label
    removal that was refused is not reported. *)
Theorem refreshNodes_error_iff node w r st' :
  refreshNodes cluster LabelUpgrading node (fresh w) = Done r st' ->
  (r = None <-> existsb isFailedUncordon (log st') = false).
Proof.
  unfold_pass. simpl.
  repeat (cluster_case; simpl); intros [= <- <-]; simpl; split; congruence.
Qed.

(** X21: a refused label removal does not keep a cordoned node cordoned: the
    uncordon is still attempted, for the node without the label. *)
Theorem refreshNodes_uncordons_anyway node w v e w1 :
  corev1.Labels node !! LabelUpgrading = Some v ->
  corev1.Unschedulable node = true ->
  Update cluster (withoutLabel LabelUpgrading node) w = (inl e, w1) ->
  exists r,
    log (final (refreshNodes cluster LabelUpgrading node (fresh w)))
    = [EvUpdate (withoutLabel LabelUpgrading node) (Some e);
       EvCordonOrUncordon uncordoner (withoutLabel LabelUpgrading node) false r].
Proof.
  intros Hl Hs Hup. unfold withoutLabel, uncordoner in *. unfold_pass. simpl.
  rewrite Hl. simpl. rewrite Hup. simpl. rewrite Hs. simpl.
  repeat (cluster_case; simpl); eexists; reflexivity.
Qed.

End Generic.

Lemma Reconcile_agent_error_verbatim_witness :
  let st' := final (Reconcile SimCluster.cluster "upgrading" "node-1" "update"
                      (fresh Scenario.agentDown)) in
  Reconcile SimCluster.cluster "upgrading" "node-1" "update" (fresh Scenario.agentDown)
  = Done (RequeueNow, Some (StatusError "agent unreachable")) st'
  /\ exists e, lastError (log st') = Some e
               /\ (existsb isAgentCall (log st') = true -> StatusError "agent unreachable" = e).
Proof.
  intros st'.
  assert (H : Reconcile SimCluster.cluster "upgrading" "node-1" "update" (fresh Scenario.agentDown)
              = Done (RequeueNow, Some (StatusError "agent unreachable")) st') by reflexivity.
  split; [exact H|].
  exact (Reconcile_agent_error_verbatim SimCluster.cluster "upgrading" "node-1" "update"
           Scenario.agentDown RequeueNow (StatusError "agent unreachable") st' H).
Defined.

Lemma Reconcile_pushes_intent_witness :
  let w := Scenario.clusterOf (Some (Scenario.intent "1.28.0" "")) (Some Scenario.labelled) in
  let up := Scenario.intent "1.28.0" "" in
  (GetUpdate SimCluster.cluster "update" w = (inr up, w)
   /\ GetNode SimCluster.cluster "node-1" w = (inr Scenario.labelled, w))
  /\ Forall (fun ev =>
               match ev with
               | EvUpgradeKubeSpec info _ => info = pushInfoOf up
               | EvNodeDrain d n _ => d = drainerOf up /\ n = corev1.Name Scenario.labelled
               | EvCordonOrUncordon d n true _ => d = drainerOf up /\ n = Scenario.labelled
               | _ => True
               end)
       (log (final (Reconcile SimCluster.cluster "upgrading" "node-1" "update" (fresh w)))).
Proof.
  intros w up.
  assert (H1 : GetUpdate SimCluster.cluster "update" w = (inr up, w)) by reflexivity.
  assert (H2 : GetNode SimCluster.cluster "node-1" w = (inr Scenario.labelled, w)) by reflexivity.
  split; [auto|].
  exact (Reconcile_pushes_intent SimCluster.cluster "upgrading" "node-1" "update"
           w up w Scenario.labelled w H1 H2).
Defined.

Lemma Reconcile_missing_intent_witness :
  let w := Scenario.clusterOf None (Some Scenario.labelled) in
  let e := StatusError "update not found" in
  GetUpdate SimCluster.cluster "update" w = (inl e, w)
  /\ Reconcile SimCluster.cluster "upgrading" "node-1" "update" (fresh w)
     = Done (RequeueAfter, None) (MkSys w [EvGetUpdate "update" (Some e)]).
Proof.
  intros w e.
  assert (H : GetUpdate SimCluster.cluster "update" w = (inl e, w)) by reflexivity.
  split; [exact H|].
  exact (Reconcile_missing_intent SimCluster.cluster "upgrading" "node-1" "update" w e w H).
Defined.

Lemma Reconcile_missing_node_witness :
  let w := Scenario.clusterOf (Some (Scenario.intent "1.28.0" "")) None in
  let up := Scenario.intent "1.28.0" "" in
  let e := StatusError "node not found" in
  (GetUpdate SimCluster.cluster "update" w = (inr up, w)
   /\ GetNode SimCluster.cluster "node-1" w = (inl e, w))
  /\ Reconcile SimCluster.cluster "upgrading" "node-1" "update" (fresh w)
     = Done (RequeueAfter, None)
         (MkSys w [EvGetUpdate "update" None; EvGetNode "node-1" (Some e)]).
Proof.
  intros w up e.
  assert (H1 : GetUpdate SimCluster.cluster "update" w = (inr up, w)) by reflexivity.
  assert (H2 : GetNode SimCluster.cluster "node-1" w = (inl e, w)) by reflexivity.
  split; [auto|].
  exact (Reconcile_missing_node SimCluster.cluster "upgrading" "node-1" "update"
           w up w e w H1 H2).
Defined.

Lemma Reconcile_not_due_never_acts_witness :
  let w := Scenario.stampedCluster in
  let up := Scenario.intent "1.28.0" "" in
  (GetUpdate SimCluster.cluster "update" w = (inr up, w)
   /\ GetNode SimCluster.cluster "node-1" w = (inr Scenario.labelled, w)
   /\ checkUpgrade SimCluster.cluster (corev1.OSImage Scenario.labelled)
        (v1alpha1.OSVersion (v1alpha1.Spec up)) (v1alpha1.KubeVersion (v1alpha1.Spec up))
        (fresh w) = Done false (fresh w))
  /\ exists st',
      Reconcile SimCluster.cluster "upgrading" "node-1" "update" (fresh w)
      = Done (RequeueAfter, None) st'
      /\ existsb isAction (log st') = false.
Proof.
  intros w up.
  assert (H1 : GetUpdate SimCluster.cluster "update" w = (inr up, w)) by reflexivity.
  assert (H2 : GetNode SimCluster.cluster "node-1" w = (inr Scenario.labelled, w)) by reflexivity.
  assert (H3 : checkUpgrade SimCluster.cluster (corev1.OSImage Scenario.labelled)
                 (v1alpha1.OSVersion (v1alpha1.Spec up)) (v1alpha1.KubeVersion (v1alpha1.Spec up))
                 (fresh w) = Done false (fresh w)) by (vm_compute; reflexivity).
  split; [auto|].
  exact (Reconcile_not_due_never_acts SimCluster.cluster "upgrading" "node-1" "update"
           w up w Scenario.labelled w H1 H2 H3).
Defined.

Lemma refreshNodes_error_iff_witness :
  let st' := final (refreshNodes SimCluster.cluster "upgrading" Scenario.cordoned
                      (fresh Scenario.updateRefused)) in
  refreshNodes SimCluster.cluster "upgrading" Scenario.cordoned (fresh Scenario.updateRefused)
  = Done None st'
  /\ (@None error = None <-> existsb isFailedUncordon (log st') = false).
Proof.
  intros st'.
  assert (H : refreshNodes SimCluster.cluster "upgrading" Scenario.cordoned
                (fresh Scenario.updateRefused) = Done None st') by (vm_compute; reflexivity).
  split; [exact H|].
  exact (refreshNodes_error_iff SimCluster.cluster "upgrading" Scenario.cordoned
           Scenario.updateRefused None st' H).
Defined.

Lemma refreshNodes_uncordons_anyway_witness :
  let w := Scenario.updateRefused in
  let e := StatusError "update refused" in
  (corev1.Labels Scenario.cordoned !! "upgrading" = Some ""
   /\ corev1.Unschedulable Scenario.cordoned = true
   /\ Update SimCluster.cluster (withoutLabel "upgrading" Scenario.cordoned) w = (inl e, w))
  /\ exists r,
      log (final (refreshNodes SimCluster.cluster "upgrading" Scenario.cordoned (fresh w)))
      = [EvUpdate (withoutLabel "upgrading" Scenario.cordoned) (Some e);
         EvCordonOrUncordon uncordoner (withoutLabel "upgrading" Scenario.cordoned) false r].
Proof.
  intros w e.
  assert (H1 : corev1.Labels Scenario.cordoned !! "upgrading" = Some "")
    by (vm_compute; reflexivity).
  assert (H2 : corev1.Unschedulable Scenario.cordoned = true) by reflexivity.
  assert (H3 : Update SimCluster.cluster (withoutLabel "upgrading" Scenario.cordoned) w
               = (inl e, w)) by reflexivity.
  split; [auto|].
  exact (refreshNodes_uncordons_anyway SimCluster.cluster "upgrading" Scenario.cordoned
           w "" e w H1 H2 H3).
Defined.

End ControllersMore.

(** * Agent and reconciler, one after the other *)

Module AgreementMore.

(** X22: once the agent has returned nil for an orchestrator version (on a
    host where the marker command does what markNode expects), a reconciler
    that sees the agent's files finds no upgrade due for that version any
    more, whatever the operating-system strings are. *)
Theorem stamped_then_not_due {W W' : Type}
    (host : Server.Host W) (cluster : Controllers.Cluster W') (vlib : VersionLib)
    (req : Server.UpgradeRequest) (w : W) (st' : Sys W Server.event)
    (osVersion osVersionSpec : string) (w' : W') :
  ServerLog.markerCreates host ->
  Server.KubeVersion req ≠ "" ->
  Server.Upgrade host vlib req (fresh w) = Done None st' ->
  Controllers.IsFileExist cluster (Server.markFile (Server.KubeVersion req)) w'
  = Server.IsFileExist host (Server.markFile (Server.KubeVersion req)) (world st') ->
  Controllers.checkUpgrade cluster osVersion osVersionSpec (Server.KubeVersion req) (fresh w')
  = Done false (fresh w').
Proof.
  intros Hm Hne Hup Hsame.
  pose proof (ServerMore.success_is_stamped host vlib req w Hm Hne) as Hs.
  rewrite Hup in Hs. rewrite Hs in Hsame.
  rewrite ControllersFacts.checkUpgrade_value, (ServerFacts.len_nonempty _ Hne).
  unfold Server.markFile in Hsame. simpl. rewrite Hsame. reflexivity.
Qed.

Lemma stamped_then_not_due_witness :
  let req := Scenario.kubeRequest "1.28.0" in
  let st' := final (Server.Upgrade SimNode.host SemVer.lib req (fresh Scenario.worker)) in
  (ServerLog.markerCreates SimNode.host
   /\ Server.KubeVersion req ≠ ""
   /\ Server.Upgrade SimNode.host SemVer.lib req (fresh Scenario.worker) = Done None st'
   /\ Controllers.IsFileExist SimCluster.cluster (Server.markFile (Server.KubeVersion req))
        Scenario.stampedCluster
      = Server.IsFileExist SimNode.host (Server.markFile (Server.KubeVersion req)) (world st'))
  /\ Controllers.checkUpgrade SimCluster.cluster "NestOS 22.03" "NestOS 23.09"
       (Server.KubeVersion req) (fresh Scenario.stampedCluster)
     = Done false (fresh Scenario.stampedCluster).
Proof.
  intros req st'.
  assert (H1 : Server.KubeVersion req ≠ "") by discriminate.
  assert (H2 : Server.Upgrade SimNode.host SemVer.lib req (fresh Scenario.worker) = Done None st')
    by (vm_compute; reflexivity).
  assert (H3 : Controllers.IsFileExist SimCluster.cluster
                 (Server.markFile (Server.KubeVersion req)) Scenario.stampedCluster
               = Server.IsFileExist SimNode.host (Server.markFile (Server.KubeVersion req))
                   (world st')) by (vm_compute; reflexivity).
  split; [auto using ServerMore.SimNode_markerCreates|].
  exact (stamped_then_not_due SimNode.host SimCluster.cluster SemVer.lib req Scenario.worker st'
           "NestOS 22.03" "NestOS 23.09" Scenario.stampedCluster
           ServerMore.SimNode_markerCreates H1 H2 H3).
Defined.

End AgreementMore.
